(** * HMC58X3 magnetometer driver: model and verified properties

    A shallow embedding of [src/HMC58X3/HMC58X3.cpp].  The driver object is
    a record of its member variables, the i2c client is a scripted bus that
    records every transaction in a journal, and each C++ method becomes a
    function in a small state monad over the pair of both.

    Numeric conventions.
    - Fixed-width integers are [Z] with the wrap-around written out
      ([to_uint8], [to_int16], [to_int32], [to_uint32]).
    - [float] and [double] are IEEE-754 binary32 and binary64, computed with
      the executable specification [SpecFloat] of the standard library;
      expressions are evaluated in the precision of their C type
      (FLT_EVAL_METHOD 0). *)

From Stdlib Require Import ZArith List Bool Lia String Strings.Byte.
From Stdlib Require Import Floats.SpecFloat.
Import ListNotations.

Local Open Scope Z_scope.

(** ** Fixed-width integers *)

Module Int.

Definition to_unsigned (w : Z) (z : Z) : Z := z mod 2 ^ w.

Definition to_signed (w : Z) (z : Z) : Z :=
  (z + 2 ^ (w - 1)) mod 2 ^ w - 2 ^ (w - 1).

Definition to_uint8 : Z -> Z := to_unsigned 8.
Definition to_int16 : Z -> Z := to_signed 16.
Definition to_int32 : Z -> Z := to_signed 32.
Definition to_uint32 : Z -> Z := to_unsigned 32.

Definition fits_signed (w : Z) (z : Z) : bool :=
  (- 2 ^ (w - 1) <=? z) && (z <? 2 ^ (w - 1)).

(** An [unsigned char] widened to [int]. *)
Definition of_byte (b : byte) : Z := Z.of_N (Byte.to_N b).

End Int.

(** ** IEEE-754 arithmetic *)

Module Fp.

Definition float : Type := spec_float.
Definition double : Type := spec_float.

Definition fprec : Z := 24.
Definition femax : Z := 128.
Definition dprec : Z := 53.
Definition demax : Z := 1024.

(** Integer to floating point, round to nearest even. *)
Definition float_of_Z (z : Z) : float := binary_normalize fprec femax z 0 false.
Definition double_of_Z (z : Z) : double := binary_normalize dprec demax z 0 false.

(** Change of format: widening is exact, narrowing rounds. *)
Definition double_of_float (x : float) : double :=
  match x with
  | S754_finite s m e => binary_round dprec demax s m e
  | _ => x
  end.

Definition float_of_double (x : double) : float :=
  match x with
  | S754_finite s m e => binary_round fprec femax s m e
  | _ => x
  end.

Definition fdiv : float -> float -> float := SFdiv fprec femax.
Definition fgt (a b : float) : bool := SFltb b a.

Definition dmul : double -> double -> double := SFmul dprec demax.
Definition ddiv : double -> double -> double := SFdiv dprec demax.
Definition dadd : double -> double -> double := SFadd dprec demax.

Definition half : double := binary_normalize dprec demax 1 (-1) false.

(** The integral part of a finite value, rounded toward zero. *)
Definition truncate (x : spec_float) : option Z :=
  match x with
  | S754_zero _ => Some 0
  | S754_finite s m e => Some (cond_Zopp s (Z.shiftl (Z.pos m) e))
  | S754_infinity _ | S754_nan => None
  end.

Section Conversion.

(** C leaves the conversion of a floating value to a signed integer type
    undefined when the truncated value is not representable (x86 delivers
    the "integer indefinite", ARM saturates).  The value delivered in that
    case is a parameter of the model; it is reduced to the target width. *)
Variable cvt_undefined : spec_float -> Z.

Definition to_signed_int (w : Z) (x : spec_float) : Z :=
  match truncate x with
  | Some z => if Int.fits_signed w z then z
              else Int.to_signed w (cvt_undefined x)
  | None => Int.to_signed w (cvt_undefined x)
  end.

End Conversion.

End Fp.

(** ** The build: header macros and target *)

(** [HMC58X3.h] is not among the sources.  Its macros are the fields of
    this class, named as [HMC58X3.cpp] uses them; [ISHMC5843] tells whether
    the driver is compiled for the HMC5843 (otherwise for the HMC5883L).
    The self-test constants enter the arithmetic as [double]. *)
Class Header := {
  ISHMC5843 : bool;
  HMC58X3_ADDR : Z;
  HMC58X3_R_CONFA : Z;
  HMC58X3_R_CONFB : Z;
  HMC58X3_R_MODE : Z;
  HMC58X3_R_XM : Z;
  HMC58X3_R_IDA : Z;
  HMC_POS_BIAS : Z;
  HMC_NEG_BIAS : Z;
  SELF_TEST_LOW_LIMIT : Fp.double;
  SELF_TEST_HIGH_LIMIT : Fp.double;
  HMC58X3_X_SELF_TEST_GAUSS : Fp.double;
  HMC58X3_Y_SELF_TEST_GAUSS : Fp.double;
  HMC58X3_Z_SELF_TEST_GAUSS : Fp.double
}.

(** What the target delivers for a floating-to-integer conversion that C
    leaves undefined (see [Fp.to_signed_int]). *)
Class Target := {
  cvt_undefined : spec_float -> Z
}.

(** ** The bus and the journal *)

(** Everything the driver does to the outside world, in order: register
    writes and reads through the i2c client, the sleeps of [delayMSec], and
    the messages of [DEBUG_PRINT].  (The [ROS_INFO] dumps of intermediate
    numbers are not recorded.) *)
Inductive event : Type :=
| BusWrite (addr reg val : Z)
| BusRead (addr reg count : Z)
| Sleep (ms : Z)
| Diag (msg : string).

(** The outcome of one [_read]: whether it reported success, and the bytes
    found in the caller's buffer afterwards. *)
Record reply : Type := { ok : bool; data : list byte }.

(** The i2c client as a scripted bus: the [n]-th read of a session is
    answered by [script n]. *)
Record I2Ckernel : Type := {
  script : nat -> reply;
  served : nat;
  journal : list event
}.

(** The member variables of the driver object. *)
Record HMC58X3 : Type := {
  x_scale : Fp.float;
  y_scale : Fp.float;
  z_scale : Fp.float;
  x_max : Fp.float;
  y_max : Fp.float;
  z_max : Fp.float
}.

Record state : Type := { dev : HMC58X3; i2c_client : I2Ckernel }.

(** ** A state monad for the methods *)

Definition M (A : Type) : Type := state -> A * state.

Definition ret {A : Type} (a : A) : M A := fun s => (a, s).

Definition bind {A B : Type} (m : M A) (k : A -> M B) : M B :=
  fun s => let (a, s') := m s in k a s'.

Declare Scope method_scope.
Delimit Scope method_scope with method.
Notation "x <- m ;; k" := (bind m (fun x => k))
  (at level 61, m at next level, right associativity) : method_scope.
Notation "m ;; k" := (bind m (fun _ => k))
  (at level 61, right associativity) : method_scope.
Local Open Scope method_scope.

Definition record (e : event) : M unit :=
  fun s =>
    let b := i2c_client s in
    (tt, {| dev := dev s;
            i2c_client := {| script := script b; served := served b;
                             journal := journal b ++ [e] |} |}).

Definition get_dev : M HMC58X3 := fun s => (dev s, s).

Definition set_dev (d : HMC58X3) : M unit :=
  fun s => (tt, {| dev := d; i2c_client := i2c_client s |}).

(** [i2c_client._write(addr, reg, &val, 1)]; the result is never looked at. *)
Definition _write (addr reg val : Z) : M unit := record (BusWrite addr reg val).

(** [i2c_client._read(addr, reg, buf, count)]. *)
Definition _read (addr reg count : Z) : M reply :=
  fun s =>
    let b := i2c_client s in
    (script b (served b),
     {| dev := dev s;
        i2c_client := {| script := script b; served := S (served b);
                         journal := journal b ++ [BusRead addr reg count] |} |}).

Definition delayMSec (num_ms : Z) : M unit := record (Sleep num_ms).

Definition DEBUG_PRINT (x : string) : M unit := record (Diag x).

(** ** The driver *)

Definition vec3 : Type := (Z * Z * Z)%type.

Section Driver.

Context {hdr : Header} {tgt : Target}.

(** Counts per milli-gauss for each gain, by chip. *)
Definition counts_per_milligauss : list Z :=
  if ISHMC5843
  then [1620; 1300; 970; 780; 530; 460; 390; 280]
  else [1370; 1090; 820; 660; 440; 390; 330; 230].

Definition counts_at (gain : Z) : Z :=
  nth (Z.to_nat gain) counts_per_milligauss 0.

(** The constructor.  It sets the scale factors only; the maxima start
    out as whatever the object's memory holds, here [m]. *)
Definition HMC58X3_new (m : Fp.float * Fp.float * Fp.float) : HMC58X3 :=
  {| x_scale := Fp.float_of_Z 1; y_scale := Fp.float_of_Z 1;
     z_scale := Fp.float_of_Z 1;
     x_max := fst (fst m); y_max := snd (fst m); z_max := snd m |}.

(** Both parameters are [unsigned char]. *)
Definition writeReg (reg val : Z) : M unit :=
  _write HMC58X3_ADDR (Int.to_uint8 reg) (Int.to_uint8 val).

Definition setMode (mode : Z) : M unit :=
  if mode >? 2 then ret tt
  else writeReg HMC58X3_R_MODE mode ;; delayMSec 100.

Definition setDOR (DOR : Z) : M unit :=
  if DOR >? 6 then ret tt
  else writeReg HMC58X3_R_CONFA (Z.shiftl DOR 2).

Definition setGain (gain : Z) : M unit :=
  if gain >? 7 then ret tt
  else writeReg HMC58X3_R_CONFB (Z.shiftl gain 5).

Definition init (setmode : bool) : M unit :=
  delayMSec 5 ;;
  (if setmode then setMode 0 else ret tt) ;;
  writeReg HMC58X3_R_CONFA 0x70 ;;
  writeReg HMC58X3_R_CONFB 0xA0 ;;
  writeReg HMC58X3_R_MODE 0x00.

Definition rx_at (rx : list byte) (i : nat) : Z := Int.of_byte (nth i rx x00).

(** The three values [getRaw] assembles from its receive buffer. *)
Definition assemble (rx : list byte) : vec3 :=
  let x := Int.to_int16 (Z.lor (Z.shiftl (rx_at rx 0) 8) (rx_at rx 1)) in
  let a := Int.to_int16 (Z.lor (Z.shiftl (rx_at rx 2) 8) (rx_at rx 3)) in
  let b := Int.to_int16 (Z.lor (Z.shiftl (rx_at rx 4) 8) (rx_at rx 5)) in
  if ISHMC5843 then (x, a, b) else (x, b, a).

Definition getRaw : M vec3 :=
  r <- _read HMC58X3_ADDR HMC58X3_R_XM 6 ;;
  ret (assemble (data r)).

(** The [float] overload of [getValues]. *)
Definition getValues : M (Fp.float * Fp.float * Fp.float) :=
  raw <- getRaw ;;
  let '(xr, yr, zr) := raw in
  d <- get_dev ;;
  ret (Fp.fdiv (Fp.float_of_Z xr) (x_scale d),
       Fp.fdiv (Fp.float_of_Z yr) (y_scale d),
       Fp.fdiv (Fp.float_of_Z zr) (z_scale d)).

(** [(int16_t) (f + 0.5)]: the sum is formed in [double]. *)
Definition round_int16 (f : Fp.float) : Z :=
  Fp.to_signed_int cvt_undefined 16 (Fp.dadd (Fp.double_of_float f) Fp.half).

(** The [int16_t] overload of [getValues]. *)
Definition getValues_int16 : M vec3 :=
  f <- getValues ;;
  let '(fx, fy, fz) := f in
  ret (round_int16 fx, round_int16 fy, round_int16 fz).

(** The identification registers as [getID] leaves them in [id]. *)
Definition getID : M (byte * byte * byte) :=
  r <- _read HMC58X3_ADDR HMC58X3_R_IDA 3 ;;
  if negb (ok r) then ret (x00, x00, x00)
  else ret (nth 0 (data r) x00, nth 1 (data r) x00, nth 2 (data r) x00).

(** [getValues(float *xyz)] *)
Definition getValues_array : M (list Fp.float) :=
  v <- getValues ;;
  let '(x, y, z) := v in
  ret [x; y; z].

(** *** The simple calibration, [calibrate(unsigned char)] *)

Definition fmax_step (v m : Fp.float) : Fp.float := if Fp.fgt v m then v else m.

(** The body of its [for] loop, [k] more times. *)
Fixpoint max_loop (k : nat) (m : Fp.float * Fp.float * Fp.float)
  : M (Fp.float * Fp.float * Fp.float) :=
  match k with
  | O => ret m
  | S k' =>
      setMode 1 ;;
      v <- getValues ;;
      let '(x, y, z) := v in
      let '(mx, my, mz) := m in
      max_loop k' (fmax_step x mx, fmax_step y my, fmax_step z mz)
  end.

Definition calibrate_gain (gain : Z) : M unit :=
  d0 <- get_dev ;;
  set_dev {| x_scale := Fp.float_of_Z 1; y_scale := Fp.float_of_Z 1;
             z_scale := Fp.float_of_Z 1;
             x_max := x_max d0; y_max := y_max d0; z_max := z_max d0 |} ;;
  writeReg HMC58X3_R_CONFA (0x010 + HMC_POS_BIAS) ;;
  setGain gain ;;
  let zero := Fp.float_of_Z 0 in
  let t := Fp.float_of_Z 10 in
  m <- max_loop (Z.to_nat (Fp.to_signed_int cvt_undefined 32 t))
                (zero, zero, zero) ;;
  let '(mx, my, mz) := m in
  let max := fmax_step mz (fmax_step my (fmax_step mx zero)) in
  set_dev {| x_scale := Fp.fdiv max mx; y_scale := Fp.fdiv max my;
             z_scale := Fp.fdiv max mz;
             x_max := mx; y_max := my; z_max := mz |} ;;
  writeReg HMC58X3_R_CONFA 0x010.

(** *** The self-test calibration, [calibrate(unsigned char, unsigned int)] *)

(** [-(1<<12) >= min(xyz[0], min(xyz[1], xyz[2]))] *)
Definition saturated (xyz : vec3) : bool :=
  let '(x, y, z) := xyz in
  - Z.shiftl 1 12 >=? Z.min x (Z.min y z).

(** [xyz_total[i] += xyz[i]] or [-=], in [int32_t]; a sum that leaves the
    range wraps around. *)
Definition accumulate (op : Z -> Z -> Z) (xyz_total xyz : vec3) : vec3 :=
  let '(t0, t1, t2) := xyz_total in
  let '(x, y, z) := xyz in
  (Int.to_int32 (op t0 x), Int.to_int32 (op t1 y), Int.to_int32 (op t2 z)).

(** One sampling loop with [k] iterations left.  It hands back the
    totals and [bret]; a saturated sample clears [bret] and breaks. *)
Fixpoint sample_loop (op : Z -> Z -> Z) (k : nat) (xyz_total : vec3)
    (bret : bool) : M (vec3 * bool) :=
  match k with
  | O => ret (xyz_total, bret)
  | S k' =>
      setMode 1 ;;
      xyz <- getRaw ;;
      let total := accumulate op xyz_total xyz in
      if saturated xyz then
        DEBUG_PRINT "HMC58x3 Self test saturated. Increase range." ;;
        ret (total, false)
      else sample_loop op k' total bret
  end.

(** [factor * counts_per_milligauss[gain] * 2 * n_samples], stored in an
    [int32_t]. *)
Definition self_test_limit (factor : Fp.double) (gain n_samples : Z) : Z :=
  Fp.to_signed_int cvt_undefined 32
    (Fp.dmul (Fp.dmul (Fp.dmul factor (Fp.double_of_Z (counts_at gain)))
                      (Fp.double_of_Z 2))
             (Fp.double_of_Z n_samples)).

Definition low_limit (gain n_samples : Z) : Z :=
  self_test_limit SELF_TEST_LOW_LIMIT gain n_samples.

Definition high_limit (gain n_samples : Z) : Z :=
  self_test_limit SELF_TEST_HIGH_LIMIT gain n_samples.

(** [(counts_per_milligauss[gain] * (gauss * 2)) / (total / n_samples)]
    stored in a [float]; the inner quotient is taken in [unsigned int]. *)
Definition self_test_scale (gauss : Fp.double) (gain total n_samples : Z)
  : Fp.float :=
  Fp.float_of_double
    (Fp.ddiv (Fp.dmul (Fp.double_of_Z (counts_at gain))
                      (Fp.dmul gauss (Fp.double_of_Z 2)))
             (Fp.double_of_Z (Int.to_uint32 total / n_samples))).

Definition in_range (lo hi v : Z) : bool := (lo <=? v) && (hi >=? v).

Definition id_matches (id : byte * byte * byte) : bool :=
  let '(a, b, c) := id in
  Byte.eqb "H"%byte a && Byte.eqb "4"%byte b && Byte.eqb "3"%byte c.

Definition calibrate (gain n_samples : Z) : M bool :=
  if (8 >? gain) && (0 <? n_samples) then
    id <- getID ;;
    if id_matches id then
      writeReg HMC58X3_R_CONFA (0x010 + HMC_POS_BIAS) ;;
      setGain gain ;;
      setMode 1 ;;
      _ <- getRaw ;;
      p <- sample_loop Z.add (Z.to_nat n_samples) (0, 0, 0) true ;;
      writeReg HMC58X3_R_CONFA (0x010 + HMC_NEG_BIAS) ;;
      q <- sample_loop Z.sub (Z.to_nat n_samples) (fst p) (snd p) ;;
      let '(t0, t1, t2) := fst q in
      let lo := low_limit gain n_samples in
      let hi := high_limit gain n_samples in
      bret <- (if snd q && in_range lo hi t0 && in_range lo hi t1
                  && in_range lo hi t2
               then
                 d <- get_dev ;;
                 set_dev {| x_scale := self_test_scale HMC58X3_X_SELF_TEST_GAUSS gain t0 n_samples;
                            y_scale := self_test_scale HMC58X3_Y_SELF_TEST_GAUSS gain t1 n_samples;
                            z_scale := self_test_scale HMC58X3_Z_SELF_TEST_GAUSS gain t2 n_samples;
                            x_max := x_max d; y_max := y_max d;
                            z_max := z_max d |} ;;
                 ret true
               else
                 DEBUG_PRINT "HMC58x3 Self test out of range." ;;
                 ret false) ;;
      writeReg HMC58X3_R_CONFA 0x010 ;;
      ret bret
    else
      DEBUG_PRINT (if ISHMC5843 then "HMC5843 failed id check."
                   else "HMC5883L failed id check.") ;;
      ret false
  else
    DEBUG_PRINT "HMC58x3 Bad parameters." ;;
    ret false.

End Driver.

(** ** Reading a session off the script and the journal *)

Definition xof (v : vec3) : Z := fst (fst v).
Definition yof (v : vec3) : Z := snd (fst v).
Definition zof (v : vec3) : Z := snd v.

Definition scales (d : HMC58X3) : Fp.float * Fp.float * Fp.float :=
  (x_scale d, y_scale d, z_scale d).

Definition is_bus (e : event) : bool :=
  match e with
  | BusWrite _ _ _ | BusRead _ _ _ => true
  | Sleep _ | Diag _ => false
  end.

Definition is_write (e : event) : bool :=
  match e with
  | BusWrite _ _ _ => true
  | _ => false
  end.

Definition count (p : event -> bool) (j : list event) : nat :=
  List.length (filter p j).

(** Offset of the first saturated sample among [k] samples from [start]. *)
Fixpoint first_saturated (f : nat -> vec3) (start k : nat) : option nat :=
  match k with
  | O => None
  | S k' =>
      if saturated (f start) then Some O
      else option_map S (first_saturated f (S start) k')
  end.

Definition saturates (f : nat -> vec3) (start k : nat) : bool :=
  match first_saturated f start k with Some _ => true | None => false end.

(** Number of samples a loop of [k] iterations reads from [start] on. *)
Definition reads_taken (f : nat -> vec3) (start k : nat) : nat :=
  match first_saturated f start k with Some j => S j | None => k end.

(** The totals after [c] samples from [start] on have been accumulated. *)
Fixpoint accumulated (op : Z -> Z -> Z) (f : nat -> vec3) (start c : nat)
    (total : vec3) : vec3 :=
  match c with
  | O => total
  | S c' => accumulated op f (S start) c' (accumulate op total (f start))
  end.

(** [g start + ... + g (start + k - 1)] *)
Fixpoint sigma (g : nat -> Z) (start k : nat) : Z :=
  match k with
  | O => 0
  | S k' => g start + sigma g (S start) k'
  end.

(** Sum of the first [k] values of [g] minus the sum of the next [k], as
    an [int32_t]: one axis after a saturation-free run of both phases. *)
Definition self_test_total (g : nat -> Z) (k : nat) : Z :=
  Int.to_int32 (sigma g 0 k - sigma g k k).

(** The largest of [m] and the [c] values of [g] from [start] on, taken as
    [float]s and compared one after the other. *)
Fixpoint running_max (g : nat -> Z) (start c : nat) (m : Fp.float) : Fp.float :=
  match c with
  | O => m
  | S c' => running_max g (S start) c' (fmax_step (Fp.float_of_Z (g start)) m)
  end.

(** The state after [c] more reads and the events [evs]. *)
Definition advance (s : state) (c : nat) (evs : list event) : state :=
  let b := i2c_client s in
  {| dev := dev s;
     i2c_client := {| script := script b; served := c + served b;
                      journal := journal b ++ evs |} |}.

Definition with_dev (d : HMC58X3) (s : state) : state :=
  {| dev := d; i2c_client := i2c_client s |}.

Section Session.

Context {hdr : Header}.

(** The values [getRaw] makes of the [i]-th reply of the session. *)
Definition raw_of (b : I2Ckernel) (i : nat) : vec3 :=
  assemble (data (script b i)).

(** The [i]-th sample that follows the identity and the discarded
    reading of a self-test started in state [s]. *)
Definition sample (s : state) (i : nat) : vec3 :=
  raw_of (i2c_client s) (i + (2 + served (i2c_client s))).

Definition write_ev (reg val : Z) : event :=
  BusWrite HMC58X3_ADDR (Int.to_uint8 reg) (Int.to_uint8 val).

(** What [c] iterations of a sampling loop add to the journal. *)
Fixpoint sampling (c : nat) : list event :=
  match c with
  | O => []
  | S c' =>
      write_ev HMC58X3_R_MODE 1 :: Sleep 100
        :: BusRead HMC58X3_ADDR HMC58X3_R_XM 6 :: sampling c'
  end.

Definition saturation_notice (sat : bool) : list event :=
  if sat then [Diag "HMC58x3 Self test saturated. Increase range."] else [].

(** The journal of a self-test that got past the identity check, with
    [c1] and [c2] samples read in the two phases. *)
Definition self_test_journal (gain : Z) (c1 : nat) (sat1 : bool) (c2 : nat)
    (sat2 : bool) (bret : bool) : list event :=
  [BusRead HMC58X3_ADDR HMC58X3_R_IDA 3;
   write_ev HMC58X3_R_CONFA (0x010 + HMC_POS_BIAS);
   write_ev HMC58X3_R_CONFB (Z.shiftl gain 5);
   write_ev HMC58X3_R_MODE 1; Sleep 100;
   BusRead HMC58X3_ADDR HMC58X3_R_XM 6]
  ++ sampling c1 ++ saturation_notice sat1
  ++ [write_ev HMC58X3_R_CONFA (0x010 + HMC_NEG_BIAS)]
  ++ sampling c2 ++ saturation_notice sat2
  ++ (if bret then [] else [Diag "HMC58x3 Self test out of range."])
  ++ [write_ev HMC58X3_R_CONFA 0x010].

(** The journal of the simple calibration. *)
Definition simple_journal (gain : Z) : list event :=
  [write_ev HMC58X3_R_CONFA (0x010 + HMC_POS_BIAS)]
  ++ (if gain >? 7 then [] else [write_ev HMC58X3_R_CONFB (Z.shiftl gain 5)])
  ++ sampling 10
  ++ [write_ev HMC58X3_R_CONFA 0x010].

(** The write that puts configuration register A back to its default. *)
Definition is_restore (e : event) : bool :=
  match e with
  | BusWrite a r v =>
      (a =? HMC58X3_ADDR) && (r =? Int.to_uint8 HMC58X3_R_CONFA) && (v =? 0x010)
  | _ => false
  end.

(** Both bias patterns change the value written to register A. *)
Definition bias_patterns_set : Prop :=
  Int.to_uint8 (0x010 + HMC_POS_BIAS) <> 0x010 /\
  Int.to_uint8 (0x010 + HMC_NEG_BIAS) <> 0x010.

(** Some sample among [k] from [start] on has a component at or below
    -4096. *)
Definition hits_saturation (f : nat -> vec3) (start k : nat) : Prop :=
  exists i, (i < k)%nat /\
    Z.min (xof (f (i + start)%nat))
          (Z.min (yof (f (i + start)%nat)) (zof (f (i + start)%nat))) <= -4096.

Context {tgt : Target}.

(** The two phases of a self-test whose loops run [k] times at most, over
    the samples [f]: how many samples each phase reads, and whether it
    meets saturation. *)
Definition pos_reads (f : nat -> vec3) (k : nat) : nat := reads_taken f 0 k.
Definition pos_saturates (f : nat -> vec3) (k : nat) : bool := saturates f 0 k.
Definition neg_reads (f : nat -> vec3) (k : nat) : nat :=
  reads_taken f (pos_reads f k) k.
Definition neg_saturates (f : nat -> vec3) (k : nat) : bool :=
  saturates f (pos_reads f k) k.

(** The totals as the two loops leave them. *)
Definition loop_totals (f : nat -> vec3) (k : nat) : vec3 :=
  accumulated Z.sub f (pos_reads f k) (neg_reads f k)
    (accumulated Z.add f 0 (pos_reads f k) (0, 0, 0)).

(** All three totals lie between the limits, ends included. *)
Definition accepted (gain n_samples : Z) (t : vec3) : bool :=
  let lo := low_limit gain n_samples in
  let hi := high_limit gain n_samples in
  in_range lo hi (xof t) && in_range lo hi (yof t) && in_range lo hi (zof t).

(** The scale factors a successful self-test derives from the totals. *)
Definition derived_scales (gain n_samples : Z) (t : vec3)
  : Fp.float * Fp.float * Fp.float :=
  (self_test_scale HMC58X3_X_SELF_TEST_GAUSS gain (xof t) n_samples,
   self_test_scale HMC58X3_Y_SELF_TEST_GAUSS gain (yof t) n_samples,
   self_test_scale HMC58X3_Z_SELF_TEST_GAUSS gain (zof t) n_samples).

Definition with_scales (sc : Fp.float * Fp.float * Fp.float) (d : HMC58X3)
  : HMC58X3 :=
  {| x_scale := fst (fst sc); y_scale := snd (fst sc); z_scale := snd sc;
     x_max := x_max d; y_max := y_max d; z_max := z_max d |}.

(** The verdict of a self-test that got past the identity check. *)
Definition verdict (gain n_samples : Z) (f : nat -> vec3) : bool :=
  let k := Z.to_nat n_samples in
  negb (pos_saturates f k) && negb (neg_saturates f k)
  && accepted gain n_samples (loop_totals f k).

End Session.

(** The 16-bit value whose high byte is [hi] and low byte is [lo], read as
    two's complement. *)
Definition be16 (hi lo : byte) : Z :=
  let u := 256 * Int.of_byte hi + Int.of_byte lo in
  if u <? 32768 then u else u - 65536.

(** ** Two builds and some sessions, for the examples *)

Definition decimal (num den : Z) : Fp.double :=
  Fp.ddiv (Fp.double_of_Z num) (Fp.double_of_Z den).

(** The HMC5883L build, with the register map and self-test figures of the
    data sheet. *)
Definition hmc5883l_h : Header :=
  {| ISHMC5843 := false;
     HMC58X3_ADDR := 0x1E;
     HMC58X3_R_CONFA := 0; HMC58X3_R_CONFB := 1; HMC58X3_R_MODE := 2;
     HMC58X3_R_XM := 3; HMC58X3_R_IDA := 10;
     HMC_POS_BIAS := 1; HMC_NEG_BIAS := 2;
     SELF_TEST_LOW_LIMIT := decimal 243 390;
     SELF_TEST_HIGH_LIMIT := decimal 575 390;
     HMC58X3_X_SELF_TEST_GAUSS := decimal 116 100;
     HMC58X3_Y_SELF_TEST_GAUSS := decimal 116 100;
     HMC58X3_Z_SELF_TEST_GAUSS := decimal 108 100 |}.

(** The same for the HMC5843. *)
Definition hmc5843_h : Header :=
  {| ISHMC5843 := true;
     HMC58X3_ADDR := 0x1E;
     HMC58X3_R_CONFA := 0; HMC58X3_R_CONFB := 1; HMC58X3_R_MODE := 2;
     HMC58X3_R_XM := 3; HMC58X3_R_IDA := 10;
     HMC_POS_BIAS := 1; HMC_NEG_BIAS := 2;
     SELF_TEST_LOW_LIMIT := decimal 243 390;
     SELF_TEST_HIGH_LIMIT := decimal 575 390;
     HMC58X3_X_SELF_TEST_GAUSS := decimal 116 100;
     HMC58X3_Y_SELF_TEST_GAUSS := decimal 116 100;
     HMC58X3_Z_SELF_TEST_GAUSS := decimal 108 100 |}.

(** A target that answers every undefined conversion with [INT_MIN]. *)
Definition indefinite_target : Target :=
  {| cvt_undefined := fun _ => - 2 ^ 31 |}.

Definition id_reply : reply := {| ok := true; data := ["H"; "4"; "3"]%byte |}.

(** A reading with the same two bytes on every axis. *)
Definition raw_reply (hi lo : byte) : reply :=
  {| ok := true; data := [hi; lo; hi; lo; hi; lo] |}.

Definition fresh (sc : nat -> reply) : state :=
  {| dev := HMC58X3_new
              (S754_zero false, S754_zero false, S754_zero false);
     i2c_client := {| script := sc; served := 0; journal := [] |} |}.

(** Identity, then +700 on every axis six times, then -700. *)
Definition in_tolerance_script (i : nat) : reply :=
  match i with
  | O => id_reply
  | _ => if (i <=? 6)%nat then raw_reply x02 xbc else raw_reply xfd x44
  end.

(** As before, but the third reading of the positive phase is -4096. *)
Definition saturating_script (i : nat) : reply :=
  match i with
  | O => id_reply
  | _ => if (i =? 4)%nat then raw_reply xf0 x00
         else if (i <=? 6)%nat then raw_reply x02 xbc else raw_reply xfd x44
  end.

(** A device that does not answer ['H','4','3']. *)
Definition stranger_script (i : nat) : reply :=
  match i with
  | O => {| ok := true; data := ["H"; "4"; "4"]%byte |}
  | _ => raw_reply x02 xbc
  end.

(** Every reading is -3 on every axis. *)
Definition minus_three_script (_ : nat) : reply := raw_reply xff xfd.

(** Every reading holds the byte pairs of 1, 2 and -3, in this order. *)
Definition axes_script (_ : nat) : reply :=
  {| ok := true; data := [x00; x01; x00; x02; xff; xfd] |}.

Definition in_tolerance_session : state := fresh in_tolerance_script.
Definition axes_session : state := fresh axes_script.
Definition saturating_session : state := fresh saturating_script.
Definition stranger_session : state := fresh stranger_script.
Definition minus_three_session : state := fresh minus_three_script.

(** ** The rest of the driver, and more ways to read a journal *)

(** The [timespec] that [delayMSec] hands to [nanosleep]:
    [tv_sec = num_ms / 1000] and [tv_nsec = (num_ms % 1000) * 1000000],
    computed in an [unsigned long] of [w] bits and stored in signed fields
    of the same width. *)
Definition delay_timespec (w num_ms : Z) : Z * Z :=
  let ms := Int.to_unsigned w num_ms in
  (Int.to_signed w (ms / 1000),
   Int.to_signed w (Int.to_unsigned w ((ms mod 1000) * 1000000))).

(** The milliseconds a journal spends asleep. *)
Fixpoint slept (j : list event) : Z :=
  match j with
  | [] => 0
  | Sleep ms :: j' => ms + slept j'
  | _ :: j' => slept j'
  end.

Definition is_diag (e : event) : bool :=
  match e with
  | Diag _ => true
  | _ => false
  end.

(** The three axes, to speak of one of them at a time. *)
Inductive axis : Type := AxisX | AxisY | AxisZ.

Definition component (a : axis) (v : vec3) : Z :=
  match a with AxisX => xof v | AxisY => yof v | AxisZ => zof v end.

Definition scale_of (a : axis) (d : HMC58X3) : Fp.float :=
  match a with AxisX => x_scale d | AxisY => y_scale d | AxisZ => z_scale d end.

Definition max_of (a : axis) (d : HMC58X3) : Fp.float :=
  match a with AxisX => x_max d | AxisY => y_max d | AxisZ => z_max d end.

(** What [(int16_t) (f + 0.5)] makes of an integer [v]: it is rounded
    toward zero after the half has been added. *)
Definition half_then_truncate (v : Z) : Z := if v <? 0 then v + 1 else v.

(** Positive [float]s in the form the conversion of a positive 16-bit
    reading takes: a mantissa of 24 digits and an exponent from -23 to 0. *)
Definition posfin (x : Fp.float) : Prop :=
  exists m e, x = S754_finite false m e /\
              digits2_pos m = 24%positive /\ -23 <= e <= 0.

Definition zero_or_posfin (x : Fp.float) : Prop :=
  x = Fp.float_of_Z 0 \/ posfin x.

(** Whether the [int16_t] overload of [getValues] makes
    [half_then_truncate v] of a reading that is exactly [v]. *)
Definition rounds_as_expected {tgt : Target} (v : Z) : bool :=
  round_int16 (Fp.float_of_Z v) =? half_then_truncate v.

(** [p] holds of the [k] integers from [z] on. *)
Fixpoint all_from (k : nat) (z : Z) (p : Z -> bool) : bool :=
  match k with
  | O => true
  | S k' => p z && all_from k' (z + 1) p
  end.

(** In-tolerance samples behind a saturated reading in the place of the
    one that the self-test throws away. *)
Definition discarded_saturated_script (i : nat) : reply :=
  match i with
  | O => id_reply
  | S O => raw_reply xf0 x00
  | _ => if (i <=? 6)%nat then raw_reply x02 xbc else raw_reply xfd x44
  end.

Definition discarded_saturated_session : state :=
  fresh discarded_saturated_script.

(** The identity read reports failure although the buffer holds
    ['H','4','3']. *)
Definition failed_read_script (i : nat) : reply :=
  match i with
  | O => {| ok := false; data := ["H"; "4"; "3"]%byte |}
  | _ => raw_reply x02 xbc
  end.

Definition failed_read_session : state := fresh failed_read_script.

(** ** The self-test acceptance and scale as the specification words them *)

(** The limit as the specification writes it: the product
    [factor * counts_per_milligauss[gain] * 2 * n_samples] itself, before
    anything is stored in an [int32_t]. *)
Definition stated_limit {hdr : Header} (factor : Fp.double)
    (gain n_samples : Z) : Fp.double :=
  Fp.dmul (Fp.dmul (Fp.dmul factor (Fp.double_of_Z (counts_at gain)))
                   (Fp.double_of_Z 2))
          (Fp.double_of_Z n_samples).

(** [total] lies between two such limits, ends included. *)
Definition stated_within (lo hi : Fp.double) (total : Z) : Prop :=
  SFleb lo (Fp.double_of_Z total) = true /\
  SFleb (Fp.double_of_Z total) hi = true.

(** The scale factor as the specification writes it, with the total
    divided by the number of samples as numbers, not as integers. *)
Definition stated_scale {hdr : Header} (gauss : Fp.double)
    (gain total n_samples : Z) : Fp.float :=
  Fp.float_of_double
    (Fp.ddiv (Fp.dmul (Fp.double_of_Z (counts_at gain))
                      (Fp.dmul gauss (Fp.double_of_Z 2)))
             (Fp.ddiv (Fp.double_of_Z total) (Fp.double_of_Z n_samples))).

(** One sample per phase: +679, then -679, on every axis. *)
Definition boundary_script (i : nat) : reply :=
  match i with
  | O => id_reply
  | _ => if (i <=? 2)%nat then raw_reply x02 xa7 else raw_reply xfd x59
  end.

Definition boundary_session : state := fresh boundary_script.

(** Five samples per phase: +701 four times and +700 once, then -700. *)
Definition remainder_script (i : nat) : reply :=
  match i with
  | O => id_reply
  | _ => if (i <=? 5)%nat then raw_reply x02 xbd
         else if (i <=? 6)%nat then raw_reply x02 xbc else raw_reply xfd x44
  end.

Definition remainder_session : state := fresh remainder_script.

(** A number that orders zero and the [posfin] values as the [float]
    comparison does. *)
Definition rank (x : Fp.float) : Z :=
  match x with
  | S754_finite false m e => e * 2 ^ 24 + Z.pos m
  | _ => - 2 ^ 30
  end.

(** * Properties *)

(** ** Integer facts *)

Module IntFacts.

Import Int.

Lemma to_int32_add_l (a b : Z) : to_int32 (to_int32 a + b) = to_int32 (a + b).
Proof.
  unfold to_int32, to_signed.
  f_equal.
  replace ((a + 2 ^ (32 - 1)) mod 2 ^ 32 - 2 ^ (32 - 1) + b + 2 ^ (32 - 1))
    with ((a + 2 ^ (32 - 1)) mod 2 ^ 32 + b) by ring.
  rewrite Zplus_mod_idemp_l. f_equal. ring.
Qed.

Lemma to_int32_sub_l (a b : Z) : to_int32 (to_int32 a - b) = to_int32 (a - b).
Proof.
  unfold Z.sub. apply to_int32_add_l.
Qed.

Lemma to_signed_range (w z : Z) :
  0 < w -> - 2 ^ (w - 1) <= to_signed w z < 2 ^ (w - 1).
Proof.
  intros Hw. unfold to_signed.
  assert (H2 : 2 ^ w = 2 * 2 ^ (w - 1)).
  { replace w with (Z.succ (w - 1)) at 1 by lia. apply Z.pow_succ_r. lia. }
  assert (Hp : 0 < 2 ^ (w - 1)) by (apply Z.pow_pos_nonneg; lia).
  pose proof (Z.mod_pos_bound (z + 2 ^ (w - 1)) (2 ^ w) ltac:(lia)).
  lia.
Qed.

Lemma to_signed_small (w z : Z) :
  0 < w -> - 2 ^ (w - 1) <= z < 2 ^ (w - 1) -> to_signed w z = z.
Proof.
  intros Hw Hz. unfold to_signed.
  assert (H2 : 2 ^ w = 2 * 2 ^ (w - 1)).
  { replace w with (Z.succ (w - 1)) at 1 by lia. apply Z.pow_succ_r. lia. }
  rewrite Z.mod_small by lia. ring.
Qed.

Lemma of_byte_range (b : byte) : 0 <= of_byte b < 256.
Proof.
  unfold of_byte. pose proof (Byte.to_N_bounded b). lia.
Qed.

(** Shifting the high byte and or-ing in the low byte adds them up. *)
Lemma shift_or_bytes (hi lo : byte) :
  Z.lor (Z.shiftl (of_byte hi) 8) (of_byte lo) = 256 * of_byte hi + of_byte lo.
Proof.
  pose proof (of_byte_range hi) as Hh. pose proof (of_byte_range lo) as Hl.
  rewrite Z.shiftl_mul_pow2 by lia.
  assert (Hland : Z.land (of_byte hi * 2 ^ 8) (of_byte lo) = 0).
  { apply Z.bits_inj'. intros k Hk. rewrite Z.land_spec, Z.bits_0.
    destruct (Z.ltb_spec k 8).
    - rewrite Z.mul_pow2_bits_low by lia. reflexivity.
    - rewrite (Z.bits_above_log2 (of_byte lo) k); [apply andb_false_r | lia |].
      destruct (Z.eq_dec (of_byte lo) 0) as [E|E]; [rewrite E; simpl; lia|].
      apply Z.log2_lt_pow2; [lia|].
      apply Z.lt_le_trans with (2 ^ 8); [change (2 ^ 8) with 256; lia|].
      apply Z.pow_le_mono_r; lia. }
  rewrite <- (Z.lxor_lor _ _ Hland), <- (Z.add_nocarry_lxor _ _ Hland).
  change (2 ^ 8) with 256. ring.
Qed.

Lemma to_int16_bytes (hi lo : byte) :
  to_int16 (Z.lor (Z.shiftl (of_byte hi) 8) (of_byte lo)) = be16 hi lo.
Proof.
  rewrite shift_or_bytes. unfold be16.
  pose proof (of_byte_range hi) as Hh. pose proof (of_byte_range lo) as Hl.
  cbv zeta. set (u := 256 * of_byte hi + of_byte lo).
  assert (Hu : 0 <= u < 65536) by (unfold u; lia).
  unfold to_int16, to_signed. change (2 ^ (16 - 1)) with 32768.
  change (2 ^ 16) with 65536.
  destruct (Z.ltb_spec u 32768).
  - rewrite Z.mod_small by lia. lia.
  - replace (u + 32768) with (u - 32768 + 1 * 65536) by ring.
    rewrite Z.mod_add by lia. rewrite Z.mod_small by lia. lia.
Qed.

End IntFacts.

(** ** Floating-point facts *)

Module FpFacts.

Import Fp.

Lemma digits2_pos_shift (p : positive) (k : positive) :
  digits2_pos (Pos.iter xO p k) = (digits2_pos p + k)%positive.
Proof.
  induction k as [|k IH] using Pos.peano_ind.
  - simpl. rewrite Pos.add_1_r. reflexivity.
  - rewrite Pos.iter_succ. simpl. rewrite IH, Pos.add_succ_r. reflexivity.
Qed.

Lemma digits2_pos_lower (p : positive) :
  2 ^ (Z.pos (digits2_pos p) - 1) <= Z.pos p.
Proof.
  induction p as [p IH|p IH|]; simpl digits2_pos.
  - rewrite Pos2Z.inj_succ.
    replace (Z.succ (Z.pos (digits2_pos p)) - 1)
      with (Z.succ (Z.pos (digits2_pos p) - 1)) by lia.
    rewrite Z.pow_succ_r by lia. lia.
  - rewrite Pos2Z.inj_succ.
    replace (Z.succ (Z.pos (digits2_pos p)) - 1)
      with (Z.succ (Z.pos (digits2_pos p) - 1)) by lia.
    rewrite Z.pow_succ_r by lia. lia.
  - simpl. lia.
Qed.

(** A mantissa of 24 digits with an exponent in range is already in
    binary32 form: there is nothing to shift out. *)
Lemma shr_fexp_canonical (m : positive) (e : Z) (l : location) :
  digits2_pos m = 24%positive -> -149 <= e ->
  shr_fexp fprec femax (Z.pos m) e l = (shr_record_of_loc (Z.pos m) l, e).
Proof.
  intros Hd He. unfold shr_fexp. cbn [Zdigits2]. rewrite Hd.
  replace (fexp fprec femax (24 + e) - e) with 0
    by (unfold fexp, emin, fprec, femax; lia).
  reflexivity.
Qed.

Lemma round_aux_canonical (s : bool) (m : positive) (e : Z) :
  digits2_pos m = 24%positive -> -149 <= e <= 104 ->
  binary_round_aux fprec femax s (Z.pos m) e loc_Exact = S754_finite s m e.
Proof.
  intros Hd He. unfold binary_round_aux.
  rewrite shr_fexp_canonical by (auto; lia).
  cbn [shr_record_of_loc shr_m loc_of_shr_record round_nearest_even].
  rewrite shr_fexp_canonical by (auto; lia). cbn [shr_record_of_loc shr_m].
  destruct (Z.leb_spec e (femax - fprec)); [reflexivity|].
  unfold femax, fprec in *. lia.
Qed.

(** An integer of fewer than 24 bits converts exactly, to a mantissa of 24
    digits. *)
Lemma binary_round_small (s : bool) (p : positive) :
  Z.pos p < 2 ^ 24 ->
  exists m e,
    binary_round fprec femax s p 0 = S754_finite s m e /\
    digits2_pos m = 24%positive /\ -23 <= e <= 0.
Proof.
  intros Hp. pose proof (digits2_pos_lower p) as Hl.
  assert (Hd : Z.pos (digits2_pos p) <= 24).
  { destruct (Z.le_gt_cases (Z.pos (digits2_pos p)) 24) as [H|H]; [exact H|].
    exfalso. assert (2 ^ 24 <= 2 ^ (Z.pos (digits2_pos p) - 1))
      by (apply Z.pow_le_mono_r; lia). lia. }
  unfold binary_round.
  replace (fexp fprec femax (Z.pos (digits2_pos p) + 0))
    with (Z.pos (digits2_pos p) - 24)
    by (unfold fexp, emin, fprec, femax; lia).
  unfold shl_align.
  destruct (Z.pos (digits2_pos p) - 24 - 0) as [|k|k] eqn:Hk.
  - exists p, 0. rewrite round_aux_canonical; [|lia|lia].
    repeat split; lia.
  - lia.
  - exists (Pos.iter xO p k), (Z.pos (digits2_pos p) - 24).
    assert (Hdig : digits2_pos (Pos.iter xO p k) = 24%positive).
    { rewrite digits2_pos_shift. lia. }
    rewrite round_aux_canonical; [|exact Hdig|lia].
    repeat split; [exact Hdig|lia|lia].
Qed.

Lemma div_eucl_shift (m : positive) :
  Z.div_eucl (Z.shiftl (Z.pos m) 24) 8388608 = (Z.pos m~0, 0).
Proof.
  pose proof (Z.div_eucl_eq (Z.shiftl (Z.pos m) 24) 8388608 ltac:(lia)) as Heq.
  pose proof (Z.mod_pos_bound (Z.shiftl (Z.pos m) 24) 8388608 ltac:(lia)) as Hb.
  unfold Z.modulo in Hb.
  destruct (Z.div_eucl (Z.shiftl (Z.pos m) 24) 8388608) as [q r].
  rewrite Z.shiftl_mul_pow2 in Heq by lia. change (2 ^ 24) with 16777216 in Heq.
  rewrite Pos2Z.inj_xO.
  assert (q = 2 * Z.pos m) by lia. f_equal; lia.
Qed.

(** Dividing a binary32 number with a full mantissa by 1.0 gives it back. *)
Lemma fdiv_one_normal (s : bool) (m : positive) (e : Z) :
  digits2_pos m = 24%positive -> -148 <= e <= 104 ->
  fdiv (S754_finite s m e) (float_of_Z 1) = S754_finite s m e.
Proof.
  intros Hd He.
  change (float_of_Z 1) with (S754_finite false 8388608 (-23)).
  unfold fdiv, SFdiv, SFdiv_core_binary. cbn [Zdigits2]. rewrite Hd.
  change (Z.pos (digits2_pos 8388608)) with 24.
  replace (Z.min (fexp fprec femax (24 + e - (24 + -23))) (e - -23))
    with (e - 1) by (unfold fexp, emin, fprec, femax; lia).
  replace (e - -23 - (e - 1)) with 24 by lia.
  rewrite div_eucl_shift.
  change (new_location 8388608 0) with loc_Exact.
  rewrite xorb_false_r.
  unfold binary_round_aux at 1.
  assert (H1 : shr_fexp fprec femax (Z.pos m~0) (e - 1) loc_Exact
               = ({| shr_m := Z.pos m; shr_r := false; shr_s := false |}, e)).
  { unfold shr_fexp. cbn [Zdigits2 digits2_pos]. rewrite Hd.
    change (Z.pos (Pos.succ 24)) with 25.
    replace (fexp fprec femax (25 + (e - 1)) - (e - 1)) with 1
      by (unfold fexp, emin, fprec, femax; lia).
    unfold shr. cbn. f_equal. lia. }
  rewrite H1. cbn [shr_m loc_of_shr_record round_nearest_even].
  rewrite shr_fexp_canonical by (auto; lia). cbn [shr_record_of_loc shr_m].
  destruct (Z.leb_spec e (femax - fprec)); [reflexivity|].
  unfold femax, fprec in *. lia.
Qed.

(** So every 16-bit reading divided by a unit scale factor is the reading
    itself. *)
Lemma fdiv_one_int16 (v : Z) :
  -32768 <= v < 32768 ->
  fdiv (float_of_Z v) (float_of_Z 1) = float_of_Z v.
Proof.
  intros Hv. destruct v as [|p|p].
  - reflexivity.
  - unfold float_of_Z at 1 3. cbn [binary_normalize].
    destruct (binary_round_small false p ltac:(lia)) as (m & e & -> & Hd & He).
    apply fdiv_one_normal; [exact Hd|lia].
  - unfold float_of_Z at 1 3. cbn [binary_normalize].
    destruct (binary_round_small true p ltac:(lia)) as (m & e & -> & Hd & He).
    apply fdiv_one_normal; [exact Hd|lia].
Qed.

End FpFacts.

(** ** How the methods run *)

Section Runs.

Context {hdr : Header} {tgt : Target}.

Lemma advance_advance (s : state) (c1 c2 : nat) (e1 e2 : list event) :
  advance (advance s c1 e1) c2 e2 = advance s (c2 + c1) (e1 ++ e2).
Proof.
  unfold advance. simpl. rewrite <- app_assoc, Nat.add_assoc. reflexivity.
Qed.

Lemma advance_nothing (s : state) : advance s 0 [] = s.
Proof.
  destruct s as [d [sc sv j]]. unfold advance. simpl.
  rewrite app_nil_r. reflexivity.
Qed.

Lemma raw_of_advance (s : state) (c : nat) (e : list event) :
  raw_of (i2c_client (advance s c e)) = raw_of (i2c_client s).
Proof. reflexivity. Qed.

Lemma served_advance (s : state) (c : nat) (e : list event) :
  served (i2c_client (advance s c e)) = (c + served (i2c_client s))%nat.
Proof. reflexivity. Qed.

Lemma writeReg_run (reg val : Z) (s : state) :
  writeReg reg val s = (tt, advance s 0 [write_ev reg val]).
Proof. reflexivity. Qed.

Lemma getRaw_run (s : state) :
  getRaw s =
  (raw_of (i2c_client s) (served (i2c_client s)),
   advance s 1 [BusRead HMC58X3_ADDR HMC58X3_R_XM 6]).
Proof. reflexivity. Qed.

Lemma setMode_run (mode : Z) (s : state) :
  mode <= 2 ->
  setMode mode s = (tt, advance s 0 [write_ev HMC58X3_R_MODE mode; Sleep 100]).
Proof.
  intros H. unfold setMode.
  destruct (Z.gtb_spec mode 2); [lia|].
  unfold bind. rewrite writeReg_run. unfold delayMSec, record, advance. simpl.
  rewrite <- app_assoc. reflexivity.
Qed.

Lemma setGain_run (gain : Z) (s : state) :
  gain <= 7 ->
  setGain gain s = (tt, advance s 0 [write_ev HMC58X3_R_CONFB (Z.shiftl gain 5)]).
Proof.
  intros H. unfold setGain.
  destruct (Z.gtb_spec gain 7); [lia|]. apply writeReg_run.
Qed.

(** One pass of a sampling loop: take a single-shot reading. *)
Lemma sample_step_run (s : state) :
  (setMode 1 ;; getRaw)%method s =
  (raw_of (i2c_client s) (served (i2c_client s)), advance s 1 (sampling 1)).
Proof.
  unfold bind. rewrite setMode_run by lia. rewrite getRaw_run.
  rewrite advance_advance. reflexivity.
Qed.

Lemma sampling_app (a b : nat) : sampling (a + b) = sampling a ++ sampling b.
Proof.
  induction a as [|a IH]; [reflexivity|].
  simpl. rewrite IH. reflexivity.
Qed.

Lemma reads_taken_succ (f : nat -> vec3) (start k : nat) :
  saturated (f start) = false ->
  reads_taken f start (S k) = S (reads_taken f (S start) k) /\
  saturates f start (S k) = saturates f (S start) k.
Proof.
  intros H. unfold reads_taken, saturates. simpl. rewrite H.
  destruct (first_saturated f (S start) k); simpl; auto.
Qed.

Lemma reads_taken_hit (f : nat -> vec3) (start k : nat) :
  saturated (f start) = true ->
  reads_taken f start (S k) = 1%nat /\ saturates f start (S k) = true.
Proof.
  intros H. unfold reads_taken, saturates. simpl. rewrite H. auto.
Qed.

(** A sampling loop reads up to and including the first saturated sample,
    accumulates what it read, and clears [bret] if it met saturation. *)
Lemma sample_loop_run (op : Z -> Z -> Z) (k : nat) :
  forall (total : vec3) (bret : bool) (s : state),
    let f := raw_of (i2c_client s) in
    let i := served (i2c_client s) in
    let c := reads_taken f i k in
    sample_loop op k total bret s =
    ((accumulated op f i c total, bret && negb (saturates f i k)),
     advance s c (sampling c ++ saturation_notice (saturates f i k))).
Proof.
  induction k as [|k IH]; intros total bret s; cbv zeta.
  - simpl. unfold ret, reads_taken, saturates. simpl.
    rewrite andb_true_r, advance_nothing. reflexivity.
  - change (sample_loop op (S k) total bret s)
      with (let (xyz, s1) := (setMode 1 ;; getRaw)%method s in
            (if saturated xyz
             then (DEBUG_PRINT "HMC58x3 Self test saturated. Increase range." ;;
                   ret (accumulate op total xyz, false))%method
             else sample_loop op k (accumulate op total xyz) bret) s1).
    rewrite sample_step_run.
    destruct (saturated (raw_of (i2c_client s) (served (i2c_client s)))) eqn:Hs.
    + destruct (reads_taken_hit _ _ k Hs) as [-> ->].
      simpl. rewrite andb_false_r.
      unfold bind, DEBUG_PRINT, record, ret, advance. simpl.
      rewrite <- app_assoc. reflexivity.
    + destruct (reads_taken_succ _ _ k Hs) as [-> ->].
      rewrite IH. cbv zeta.
      rewrite raw_of_advance, served_advance, advance_advance.
      simpl Nat.add. rewrite Nat.add_1_r, app_assoc. reflexivity.
Qed.

Lemma bind_run {A B : Type} (m : M A) (k : A -> M B) (s s' : state) (a : A) :
  m s = (a, s') -> (x <- m ;; k x)%method s = k a s'.
Proof. intros H. unfold bind. rewrite H. reflexivity. Qed.

Lemma first_saturated_shift (f : nat -> vec3) (a k : nat) :
  forall start,
    first_saturated f (start + a) k
    = first_saturated (fun i => f (i + a)%nat) start k.
Proof.
  induction k as [|k IH]; intros start; [reflexivity|].
  simpl. rewrite <- IH. reflexivity.
Qed.

Lemma accumulated_shift (op : Z -> Z -> Z) (f : nat -> vec3) (a c : nat) :
  forall start total,
    accumulated op f (start + a) c total
    = accumulated op (fun i => f (i + a)%nat) start c total.
Proof.
  induction c as [|c IH]; intros start total; [reflexivity|].
  simpl. rewrite <- IH. reflexivity.
Qed.

Lemma getID_state (s : state) :
  snd (getID s) = advance s 1 [BusRead HMC58X3_ADDR HMC58X3_R_IDA 3].
Proof.
  unfold getID, bind, _read. cbv beta iota zeta.
  destruct (negb (ok _)); reflexivity.
Qed.

Lemma phase_reads (s : state) (start k : nat) :
  reads_taken (raw_of (i2c_client s)) (start + (2 + served (i2c_client s))) k
  = reads_taken (sample s) start k.
Proof.
  unfold reads_taken. rewrite first_saturated_shift. reflexivity.
Qed.

Lemma phase_saturates (s : state) (start k : nat) :
  saturates (raw_of (i2c_client s)) (start + (2 + served (i2c_client s))) k
  = saturates (sample s) start k.
Proof.
  unfold saturates. rewrite first_saturated_shift. reflexivity.
Qed.

Lemma phase_accumulated (op : Z -> Z -> Z) (s : state) (start c : nat)
    (total : vec3) :
  accumulated op (raw_of (i2c_client s))
    (start + (2 + served (i2c_client s))) c total
  = accumulated op (sample s) start c total.
Proof. apply accumulated_shift. Qed.

(** The whole course of a self-test with valid parameters on a device
    that identifies itself. *)
Lemma calibrate_run (gain n_samples : Z) (s : state) :
  gain <= 7 -> 0 < n_samples ->
  id_matches (fst (getID s)) = true ->
  let f := sample s in
  let k := Z.to_nat n_samples in
  let v := verdict gain n_samples f in
  calibrate gain n_samples s =
  (v,
   with_dev
     (if v then with_scales (derived_scales gain n_samples (loop_totals f k)) (dev s)
      else dev s)
     (advance s (neg_reads f k + pos_reads f k + 2)
        (self_test_journal gain (pos_reads f k) (pos_saturates f k)
           (neg_reads f k) (neg_saturates f k) v))).
Proof.
  intros Hg Hn Hid. cbv zeta. unfold calibrate.
  destruct (Z.gtb_spec 8 gain); [|lia].
  destruct (Z.ltb_spec 0 n_samples); [|lia].
  change (true && true) with true. cbv beta iota.
  rewrite (bind_run _ _ _ _ _ (surjective_pairing (getID s))).
  rewrite Hid, getID_state.
  rewrite (bind_run _ _ _ _ _ (writeReg_run _ _ _)), advance_advance.
  rewrite (bind_run _ _ _ _ _ (setGain_run _ _ Hg)), advance_advance.
  rewrite (bind_run _ _ _ _ _ (setMode_run 1 _ ltac:(lia))), advance_advance.
  rewrite (bind_run _ _ _ _ _ (getRaw_run _)), advance_advance.
  rewrite (bind_run _ _ _ _ _ (sample_loop_run Z.add _ _ _ _)).
  cbv zeta. rewrite raw_of_advance, served_advance, advance_advance.
  simpl Nat.add.
  change (S (S (served (i2c_client s))))
    with (0 + (2 + served (i2c_client s)))%nat.
  rewrite phase_reads, phase_saturates, phase_accumulated.
  cbn [fst snd]. rewrite andb_true_l.
  fold (pos_reads (sample s) (Z.to_nat n_samples)).
  fold (pos_saturates (sample s) (Z.to_nat n_samples)).
  set (c1 := pos_reads (sample s) (Z.to_nat n_samples)).
  set (sat1 := pos_saturates (sample s) (Z.to_nat n_samples)).
  rewrite (bind_run _ _ _ _ _ (writeReg_run _ _ _)), advance_advance.
  rewrite (bind_run _ _ _ _ _ (sample_loop_run Z.sub _ _ _ _)).
  cbv zeta. rewrite raw_of_advance, served_advance, advance_advance.
  simpl Nat.add.
  replace (0 + (c1 + 2) + served (i2c_client s))%nat
    with (c1 + (2 + served (i2c_client s)))%nat by lia.
  rewrite phase_reads, phase_saturates, phase_accumulated.
  cbn [fst snd].
  replace (c1 + 2 + served (i2c_client s))%nat
    with (c1 + (2 + served (i2c_client s)))%nat by lia.
  rewrite phase_reads, phase_saturates.
  unfold verdict, accepted, loop_totals, neg_reads, neg_saturates.
  fold c1 sat1. cbv zeta.
  set (c2 := reads_taken (sample s) c1 (Z.to_nat n_samples)).
  set (sat2 := saturates (sample s) c1 (Z.to_nat n_samples)).
  destruct (accumulated Z.sub (sample s) c1 c2
              (accumulated Z.add (sample s) 0 c1 (0, 0, 0)))
    as [[t0 t1] t2].
  cbn [xof yof zof fst snd].
  rewrite !andb_assoc.
  set (v := negb sat1 && negb sat2 && in_range _ _ t0 && in_range _ _ t1
            && in_range _ _ t2).
  replace (c2 + c1 + 2)%nat with (c2 + (c1 + 2))%nat by lia.
  destruct v;
    unfold bind, get_dev, set_dev, DEBUG_PRINT, record, ret, writeReg, _write,
      record, with_dev, advance, self_test_journal, derived_scales, with_scales;
    cbn [fst snd dev i2c_client script served journal xof yof zof];
    repeat rewrite <- app_assoc; reflexivity.
Qed.
End Runs.

(** ** Saturation scans and totals *)

Section Scans.

Lemma saturated_spec (v : vec3) :
  saturated v = true <-> Z.min (xof v) (Z.min (yof v) (zof v)) <= -4096.
Proof.
  destruct v as [[x y] z]. unfold saturated, xof, yof, zof. cbn [fst snd].
  change (- Z.shiftl 1 12) with (-4096).
  rewrite Z.geb_le. reflexivity.
Qed.

Lemma first_saturated_none (f : nat -> vec3) (k : nat) :
  forall start,
    first_saturated f start k = None <->
    (forall i, (i < k)%nat -> saturated (f (i + start)%nat) = false).
Proof.
  induction k as [|k IH]; intros start; simpl.
  - split; [intros _ i Hi; lia | reflexivity].
  - destruct (saturated (f start)) eqn:Hs.
    + split; [discriminate|].
      intros H. specialize (H 0%nat ltac:(lia)). simpl in H. congruence.
    + destruct (first_saturated f (S start) k) eqn:Hf; simpl.
      * split; [discriminate|]. intros H.
        assert (Hn : first_saturated f (S start) k = None).
        { apply IH. intros i Hi. specialize (H (S i) ltac:(lia)).
          rewrite Nat.add_succ_r. exact H. }
        congruence.
      * split; [|reflexivity]. intros _ [|i] Hi; [exact Hs|].
        pose proof (proj1 (IH (S start)) Hf i ltac:(lia)) as H.
        rewrite Nat.add_succ_r in H. exact H.
Qed.

Lemma first_saturated_bound (f : nat -> vec3) (k : nat) :
  forall start j, first_saturated f start k = Some j -> (j < k)%nat.
Proof.
  induction k as [|k IH]; intros start j; simpl; [discriminate|].
  destruct (saturated (f start)).
  - intros [= <-]. lia.
  - destruct (first_saturated f (S start) k) eqn:Hf; simpl; [|discriminate].
    intros [= <-]. apply IH in Hf. lia.
Qed.

Lemma saturates_false (f : nat -> vec3) (start k : nat) :
  saturates f start k = false <->
  (forall i, (i < k)%nat -> saturated (f (i + start)%nat) = false).
Proof.
  rewrite <- first_saturated_none. unfold saturates.
  destruct (first_saturated f start k); split; congruence.
Qed.

Lemma saturates_true (f : nat -> vec3) (start k : nat) :
  saturates f start k = true <-> hits_saturation f start k.
Proof.
  unfold hits_saturation. split.
  - intros H. destruct (first_saturated f start k) as [j|] eqn:Hf.
    + clear H. revert start j Hf.
      induction k as [|k IH]; intros start j; simpl; [discriminate|].
      destruct (saturated (f start)) eqn:Hs.
      * intros _. exists 0%nat. split; [lia|].
        apply saturated_spec. exact Hs.
      * destruct (first_saturated f (S start) k) eqn:Hf; simpl; [|discriminate].
        intros _. destruct (IH _ _ Hf) as (i & Hi & Hm).
        exists (S i). split; [lia|]. rewrite Nat.add_succ_r in Hm. exact Hm.
    + unfold saturates in H. rewrite Hf in H. discriminate.
  - intros (i & Hi & Hm). apply saturated_spec in Hm.
    destruct (saturates f start k) eqn:Hs; [reflexivity|].
    rewrite saturates_false in Hs. rewrite (Hs i Hi) in Hm. discriminate.
Qed.

Lemma reads_taken_clean (f : nat -> vec3) (start k : nat) :
  saturates f start k = false -> reads_taken f start k = k.
Proof.
  unfold saturates, reads_taken.
  destruct (first_saturated f start k); [discriminate | reflexivity].
Qed.

Lemma reads_taken_le (f : nat -> vec3) (start k : nat) :
  (reads_taken f start k <= k)%nat.
Proof.
  unfold reads_taken. destruct (first_saturated f start k) eqn:Hf; [|lia].
  apply first_saturated_bound in Hf. lia.
Qed.

Lemma reads_taken_pos (f : nat -> vec3) (start k : nat) :
  (0 < k)%nat -> (1 <= reads_taken f start k)%nat.
Proof.
  unfold reads_taken. destruct (first_saturated f start k); lia.
Qed.

(** Accumulating with wrap-around at every step is the same as wrapping
    the sum once. *)
Lemma accumulated_add (f : nat -> vec3) (c : nat) :
  forall start a0 a1 a2,
    accumulated Z.add f start c
      (Int.to_int32 a0, Int.to_int32 a1, Int.to_int32 a2)
    = (Int.to_int32 (a0 + sigma (fun i => xof (f i)) start c),
       Int.to_int32 (a1 + sigma (fun i => yof (f i)) start c),
       Int.to_int32 (a2 + sigma (fun i => zof (f i)) start c)).
Proof.
  induction c as [|c IH]; intros start a0 a1 a2; simpl.
  - rewrite !Z.add_0_r. reflexivity.
  - destruct (f start) as [[x y] z]. unfold xof, yof, zof. cbn [fst snd].
    rewrite !IntFacts.to_int32_add_l, IH, !Z.add_assoc. reflexivity.
Qed.

Lemma accumulated_sub (f : nat -> vec3) (c : nat) :
  forall start a0 a1 a2,
    accumulated Z.sub f start c
      (Int.to_int32 a0, Int.to_int32 a1, Int.to_int32 a2)
    = (Int.to_int32 (a0 - sigma (fun i => xof (f i)) start c),
       Int.to_int32 (a1 - sigma (fun i => yof (f i)) start c),
       Int.to_int32 (a2 - sigma (fun i => zof (f i)) start c)).
Proof.
  induction c as [|c IH]; intros start a0 a1 a2; simpl.
  - rewrite !Z.sub_0_r. reflexivity.
  - destruct (f start) as [[x y] z]. unfold xof, yof, zof. cbn [fst snd].
    rewrite !IntFacts.to_int32_sub_l, IH, !Z.sub_add_distr. reflexivity.
Qed.

Lemma sigma_bounds (g : nat -> Z) (lo hi : Z) (k : nat) :
  (forall i, lo <= g i <= hi) ->
  forall start, Z.of_nat k * lo <= sigma g start k <= Z.of_nat k * hi.
Proof.
  intros Hg. induction k as [|k IH]; intros start.
  - simpl. lia.
  - cbn [sigma]. specialize (IH (S start)). specialize (Hg start). lia.
Qed.

(** With fewer than 32768 samples per phase the totals never leave the
    range of an [int32_t]: each is the plain difference of the two sums. *)
Lemma self_test_total_exact (g : nat -> Z) (k : nat) :
  (forall i, -32768 <= g i <= 32767) -> Z.of_nat k < 32768 ->
  self_test_total g k = sigma g 0 k - sigma g k k.
Proof.
  intros Hg Hk. unfold self_test_total, Int.to_int32.
  pose proof (sigma_bounds g _ _ k Hg 0%nat).
  pose proof (sigma_bounds g _ _ k Hg k).
  apply IntFacts.to_signed_small; [lia|].
  change (2 ^ (32 - 1)) with 2147483648. lia.
Qed.

End Scans.

(** ** The self-test calibration *)

Section SelfTest.

Context {hdr : Header} {tgt : Target}.

(** A run is free of saturation exactly when none of the [2 * k] samples
    that follow the discarded reading is saturated. *)
Lemma saturation_free (f : nat -> vec3) (k : nat) :
  pos_saturates f k = false /\ neg_saturates f k = false <->
  (forall i, (i < 2 * k)%nat -> saturated (f i) = false).
Proof.
  unfold pos_saturates, neg_saturates, pos_reads. split.
  - intros [Hp Hq]. rewrite (reads_taken_clean _ _ _ Hp) in Hq.
    rewrite saturates_false in Hp, Hq. intros i Hi.
    destruct (Nat.lt_ge_cases i k) as [Hlt|Hge].
    + specialize (Hp i Hlt). rewrite Nat.add_0_r in Hp. exact Hp.
    + specialize (Hq (i - k)%nat ltac:(lia)).
      replace (i - k + k)%nat with i in Hq by lia. exact Hq.
  - intros H.
    assert (Hp : saturates f 0 k = false).
    { apply saturates_false. intros i Hi. rewrite Nat.add_0_r.
      apply H. lia. }
    split; [exact Hp|]. rewrite (reads_taken_clean _ _ _ Hp).
    apply saturates_false. intros i Hi. apply H. lia.
Qed.

(** After a saturation-free run each total is the sum of the positive-bias
    samples minus the sum of the negative-bias samples, as an [int32_t]. *)
Lemma saturation_free_totals (f : nat -> vec3) (k : nat) :
  pos_saturates f k = false -> neg_saturates f k = false ->
  loop_totals f k =
  (self_test_total (fun i => xof (f i)) k,
   self_test_total (fun i => yof (f i)) k,
   self_test_total (fun i => zof (f i)) k).
Proof.
  intros Hp Hq. unfold loop_totals, neg_reads.
  unfold neg_saturates in Hq. unfold pos_saturates in Hp.
  rewrite (reads_taken_clean _ _ _ Hq).
  unfold pos_reads. rewrite (reads_taken_clean _ _ _ Hp).
  change (0, 0, 0) with (Int.to_int32 0, Int.to_int32 0, Int.to_int32 0).
  rewrite accumulated_add, accumulated_sub. reflexivity.
Qed.

Lemma verdict_true (gain n_samples : Z) (f : nat -> vec3) :
  verdict gain n_samples f = true <->
  pos_saturates f (Z.to_nat n_samples) = false /\
  neg_saturates f (Z.to_nat n_samples) = false /\
  accepted gain n_samples (loop_totals f (Z.to_nat n_samples)) = true.
Proof.
  unfold verdict. cbv zeta.
  rewrite !andb_true_iff, !negb_true_iff. tauto.
Qed.

Lemma in_range_spec (lo hi v : Z) : in_range lo hi v = true <-> lo <= v <= hi.
Proof.
  unfold in_range. rewrite andb_true_iff, Z.leb_le, Z.geb_le. tauto.
Qed.

Lemma calibrate_bad_parameters_run (gain n_samples : Z) (s : state) :
  7 < gain \/ n_samples <= 0 ->
  calibrate gain n_samples s =
  (false, advance s 0 [Diag "HMC58x3 Bad parameters."]).
Proof.
  intros H. unfold calibrate.
  assert (E : (8 >? gain) && (0 <? n_samples) = false).
  { apply andb_false_iff. rewrite Z.gtb_ltb, !Z.ltb_ge. lia. }
  rewrite E. reflexivity.
Qed.

Lemma calibrate_stranger_run (gain n_samples : Z) (s : state) :
  gain <= 7 -> 0 < n_samples ->
  id_matches (fst (getID s)) = false ->
  calibrate gain n_samples s =
  (false,
   advance s 1
     [BusRead HMC58X3_ADDR HMC58X3_R_IDA 3;
      Diag (if ISHMC5843 then "HMC5843 failed id check."
            else "HMC5883L failed id check.")]).
Proof.
  intros Hg Hn Hid. unfold calibrate.
  destruct (Z.gtb_spec 8 gain); [|lia].
  destruct (Z.ltb_spec 0 n_samples); [|lia].
  change (true && true) with true. cbv beta iota.
  rewrite (bind_run _ _ _ _ _ (surjective_pairing (getID s))).
  rewrite Hid, getID_state.
  unfold bind, DEBUG_PRINT, record, ret, advance. simpl.
  rewrite <- app_assoc. reflexivity.
Qed.

(** Whatever the parameters and the device, the driver object after the
    call is the old one, or the old one with the three derived scale
    factors, according to the result. *)
Lemma calibrate_dev (gain n_samples : Z) (s : state) :
  let r := calibrate gain n_samples s in
  dev (snd r) =
  if fst r
  then with_scales
         (derived_scales gain n_samples
            (loop_totals (sample s) (Z.to_nat n_samples))) (dev s)
  else dev s.
Proof.
  cbv zeta.
  destruct (Z.le_gt_cases gain 7) as [Hg|Hg];
    [destruct (Z.lt_ge_cases 0 n_samples) as [Hn|Hn]|].
  - destruct (id_matches (fst (getID s))) eqn:Hid.
    + rewrite (calibrate_run gain n_samples s Hg Hn Hid). cbv zeta.
      cbn [fst snd]. destruct (verdict gain n_samples (sample s)); reflexivity.
    + rewrite (calibrate_stranger_run gain n_samples s Hg Hn Hid). reflexivity.
  - rewrite calibrate_bad_parameters_run by lia. reflexivity.
  - rewrite calibrate_bad_parameters_run by lia. reflexivity.
Qed.

(** C1, as amended: with [gain] in 0..7 and [n_samples > 0], on a device
    that passes the identity check, [calibrate] returns [true] if and only
    if none of the samples of the two bias phases is saturated and each of
    the three accumulated totals lies between [low_limit] and
    [high_limit], ends included; the limits are the products as the code
    stores them in its two [int32_t] variables, their fraction dropped. *)
Theorem calibrate_true_iff (gain n_samples : Z) (s : state) :
  0 <= gain <= 7 -> 0 < n_samples ->
  id_matches (fst (getID s)) = true ->
  let f := sample s in
  let k := Z.to_nat n_samples in
  let limit factor :=
    Fp.to_signed_int cvt_undefined 32
      (Fp.dmul (Fp.dmul (Fp.dmul factor (Fp.double_of_Z (counts_at gain)))
                        (Fp.double_of_Z 2))
               (Fp.double_of_Z n_samples)) in
  let lo := limit SELF_TEST_LOW_LIMIT in
  let hi := limit SELF_TEST_HIGH_LIMIT in
  fst (calibrate gain n_samples s) = true <->
  (forall i, (i < 2 * k)%nat -> saturated (f i) = false) /\
  lo <= self_test_total (fun i => xof (f i)) k <= hi /\
  lo <= self_test_total (fun i => yof (f i)) k <= hi /\
  lo <= self_test_total (fun i => zof (f i)) k <= hi.
Proof.
  intros Hg Hn Hid. cbv zeta.
  fold (self_test_limit SELF_TEST_LOW_LIMIT gain n_samples).
  fold (self_test_limit SELF_TEST_HIGH_LIMIT gain n_samples).
  fold (low_limit gain n_samples). fold (high_limit gain n_samples).
  rewrite (calibrate_run gain n_samples s (proj2 Hg) Hn Hid). cbv zeta.
  cbn [fst]. rewrite verdict_true, <- saturation_free. split.
  - intros (Hp & Hq & Ha). split; [auto|].
    rewrite (saturation_free_totals _ _ Hp Hq) in Ha.
    unfold accepted in Ha. cbv zeta in Ha. cbn [xof yof zof fst snd] in Ha.
    rewrite !andb_true_iff, !in_range_spec in Ha. tauto.
  - intros ((Hp & Hq) & Hx & Hy & Hz). repeat split; auto.
    rewrite (saturation_free_totals _ _ Hp Hq).
    unfold accepted. cbv zeta. cbn [xof yof zof fst snd].
    rewrite !andb_true_iff, !in_range_spec. tauto.
Qed.

(** The identity check, the saturation flag and the range check all have
    to pass for [calibrate] to return [true]. *)
Lemma calibrate_true_inv (gain n_samples : Z) (s : state) :
  fst (calibrate gain n_samples s) = true ->
  gain <= 7 /\ 0 < n_samples /\ id_matches (fst (getID s)) = true /\
  verdict gain n_samples (sample s) = true.
Proof.
  intros H.
  destruct (Z.le_gt_cases gain 7) as [Hg|Hg];
    [destruct (Z.lt_ge_cases 0 n_samples) as [Hn|Hn]|].
  - destruct (id_matches (fst (getID s))) eqn:Hid.
    + rewrite (calibrate_run gain n_samples s Hg Hn Hid) in H. auto.
    + rewrite (calibrate_stranger_run gain n_samples s Hg Hn Hid) in H.
      discriminate.
  - rewrite calibrate_bad_parameters_run in H by lia. discriminate.
  - rewrite calibrate_bad_parameters_run in H by lia. discriminate.
Qed.

(** The totals of a call that returned [true]. *)
Lemma calibrate_true_totals (gain n_samples : Z) (s : state) :
  fst (calibrate gain n_samples s) = true ->
  loop_totals (sample s) (Z.to_nat n_samples) =
  (self_test_total (fun i => xof (sample s i)) (Z.to_nat n_samples),
   self_test_total (fun i => yof (sample s i)) (Z.to_nat n_samples),
   self_test_total (fun i => zof (sample s i)) (Z.to_nat n_samples)).
Proof.
  intros H. apply calibrate_true_inv in H. destruct H as (_ & _ & _ & Hv).
  apply verdict_true in Hv. destruct Hv as (Hp & Hq & _).
  apply saturation_free_totals; assumption.
Qed.

(** C2, as amended: with [gain] in 0..7 and [n_samples > 0], when
    [calibrate] succeeds each scale factor is
    [counts_per_milligauss[gain] * (axis gauss * 2) / (total / n_samples)],
    where [total] is that axis's sum of the positive-bias samples minus the
    sum of the negative-bias samples.  The product and the outer quotient
    are formed in [double] and stored in a [float]; [total / n_samples] is
    the unsigned 32-bit integer quotient. *)
Theorem calibrate_scale_factors (gain n_samples : Z) (s : state) :
  0 <= gain <= 7 -> 0 < n_samples ->
  fst (calibrate gain n_samples s) = true ->
  let f := sample s in
  let k := Z.to_nat n_samples in
  let formula gauss total :=
    Fp.float_of_double
      (Fp.ddiv (Fp.dmul (Fp.double_of_Z (counts_at gain))
                        (Fp.dmul gauss (Fp.double_of_Z 2)))
               (Fp.double_of_Z (Int.to_uint32 total / n_samples))) in
  let d := dev (snd (calibrate gain n_samples s)) in
  x_scale d = formula HMC58X3_X_SELF_TEST_GAUSS
                (self_test_total (fun i => xof (f i)) k) /\
  y_scale d = formula HMC58X3_Y_SELF_TEST_GAUSS
                (self_test_total (fun i => yof (f i)) k) /\
  z_scale d = formula HMC58X3_Z_SELF_TEST_GAUSS
                (self_test_total (fun i => zof (f i)) k).
Proof.
  intros Hg Hn Hok. cbv zeta.
  pose proof (calibrate_dev gain n_samples s) as Hd. cbv zeta in Hd.
  rewrite Hok in Hd. rewrite Hd, (calibrate_true_totals _ _ _ Hok).
  repeat split.
Qed.

(** C3: a call of [calibrate] that returns [false] leaves the driver
    object, and so all three scale factors, as they were; a call that
    returns [true] assigns all three scale factors, each from its own
    total, and nothing else.  No input leads to anything in between. *)
Theorem calibrate_all_or_nothing (gain n_samples : Z) (s : state) :
  let r := calibrate gain n_samples s in
  let f := sample s in
  let k := Z.to_nat n_samples in
  dev (snd r) =
  if fst r
  then {| x_scale := self_test_scale HMC58X3_X_SELF_TEST_GAUSS gain
                       (self_test_total (fun i => xof (f i)) k) n_samples;
          y_scale := self_test_scale HMC58X3_Y_SELF_TEST_GAUSS gain
                       (self_test_total (fun i => yof (f i)) k) n_samples;
          z_scale := self_test_scale HMC58X3_Z_SELF_TEST_GAUSS gain
                       (self_test_total (fun i => zof (f i)) k) n_samples;
          x_max := x_max (dev s); y_max := y_max (dev s);
          z_max := z_max (dev s) |}
  else dev s.
Proof.
  cbv zeta. pose proof (calibrate_dev gain n_samples s) as Hd.
  cbv zeta in Hd. rewrite Hd.
  destruct (fst (calibrate gain n_samples s)) eqn:Hok; [|reflexivity].
  rewrite (calibrate_true_totals _ _ _ Hok). reflexivity.
Qed.

Lemma count_app (p : event -> bool) (a b : list event) :
  count p (a ++ b) = (count p a + count p b)%nat.
Proof.
  unfold count. rewrite filter_app, length_app. reflexivity.
Qed.

Lemma count_cons (p : event -> bool) (e : event) (l : list event) :
  count p (e :: l) = ((if p e then 1 else 0) + count p l)%nat.
Proof. unfold count. simpl. destruct (p e); reflexivity. Qed.

Lemma is_restore_other (reg val : Z) :
  Int.to_uint8 val <> 16 -> is_restore (write_ev reg val) = false.
Proof.
  intros H. unfold is_restore, write_ev. apply Z.eqb_neq in H.
  rewrite H. apply andb_false_r.
Qed.

Lemma is_restore_default : is_restore (write_ev HMC58X3_R_CONFA 16) = true.
Proof.
  unfold is_restore, write_ev. rewrite !Z.eqb_refl. reflexivity.
Qed.

Lemma count_restore_sampling (c : nat) : count is_restore (sampling c) = 0%nat.
Proof.
  induction c as [|c IH]; [reflexivity|].
  cbn [sampling]. rewrite !count_cons, IH.
  rewrite is_restore_other by (vm_compute; discriminate). reflexivity.
Qed.

Lemma count_restore_notice (sat : bool) :
  count is_restore (saturation_notice sat) = 0%nat.
Proof. destruct sat; reflexivity. Qed.

Lemma gain_bits_not_default (gain : Z) :
  0 <= gain <= 7 -> Int.to_uint8 (Z.shiftl gain 5) <> 16.
Proof.
  intros H. rewrite Z.shiftl_mul_pow2 by lia.
  unfold Int.to_uint8, Int.to_unsigned. change (2 ^ 5) with 32.
  change (2 ^ 8) with 256. rewrite Z.mod_small by lia. lia.
Qed.

(** The journal of a self-test holds the write that restores register A
    once, at its end. *)
Lemma count_restore_self_test (gain : Z) (c1 c2 : nat) (sat1 sat2 v : bool) :
  0 <= gain <= 7 -> bias_patterns_set ->
  count is_restore (self_test_journal gain c1 sat1 c2 sat2 v) = 1%nat.
Proof.
  intros Hg [Hpos Hneg]. unfold self_test_journal.
  rewrite !count_app, !count_restore_sampling, !count_restore_notice.
  assert (Hv : count is_restore
                 (if v then [] else [Diag "HMC58x3 Self test out of range."])
               = 0%nat) by (destruct v; reflexivity).
  rewrite Hv, !count_cons.
  rewrite (is_restore_other _ _ Hpos), (is_restore_other _ _ Hneg).
  rewrite (is_restore_other _ _ (gain_bits_not_default gain Hg)).
  rewrite is_restore_other by (vm_compute; discriminate).
  rewrite is_restore_default. reflexivity.
Qed.

(** C4: if a sample of either bias phase has a component at or below
    -4096, the loop of that phase stops right after the first such sample
    and [calibrate] returns [false] whatever the totals are; the negative
    phase is still run after a saturated positive phase (it reads at
    least one sample), and the write that restores configuration
    register A is issued once. *)
Theorem calibrate_saturation (gain n_samples : Z) (s : state) :
  0 <= gain <= 7 -> 0 < n_samples ->
  id_matches (fst (getID s)) = true ->
  bias_patterns_set ->
  let f := sample s in
  let k := Z.to_nat n_samples in
  hits_saturation f 0 k \/ hits_saturation f (pos_reads f k) k ->
  let r := calibrate gain n_samples s in
  let added :=
    self_test_journal gain (pos_reads f k) (pos_saturates f k)
      (neg_reads f k) (neg_saturates f k) false in
  fst r = false /\
  journal (i2c_client (snd r)) = journal (i2c_client s) ++ added /\
  served (i2c_client (snd r))
    = (neg_reads f k + pos_reads f k + 2 + served (i2c_client s))%nat /\
  (forall j, first_saturated f 0 k = Some j ->
             pos_reads f k = S j /\ (j < k)%nat) /\
  (forall j, first_saturated f (pos_reads f k) k = Some j ->
             neg_reads f k = S j /\ (j < k)%nat) /\
  (1 <= neg_reads f k)%nat /\
  count is_restore added = 1%nat.
Proof.
  intros Hg Hn Hid Hbias. cbv zeta. intros Hsat.
  rewrite (calibrate_run gain n_samples s (proj2 Hg) Hn Hid). cbv zeta.
  assert (Hv : verdict gain n_samples (sample s) = false).
  { unfold verdict, pos_saturates, neg_saturates. cbv zeta.
    destruct Hsat as [H|H]; apply saturates_true in H; rewrite H;
      [reflexivity | rewrite andb_false_r; reflexivity]. }
  rewrite Hv. cbn [fst snd].
  split; [reflexivity|]. split; [reflexivity|]. split; [reflexivity|].
  split; [|split; [|split]].
  - intros j Hj. split.
    + unfold pos_reads, reads_taken. rewrite Hj. reflexivity.
    + apply (first_saturated_bound _ _ _ _ Hj).
  - intros j Hj. split.
    + unfold neg_reads, reads_taken. rewrite Hj. reflexivity.
    + apply (first_saturated_bound _ _ _ _ Hj).
  - apply reads_taken_pos. lia.
  - apply count_restore_self_test; assumption.
Qed.

(** C5: with [gain > 7] or [n_samples = 0], [calibrate] returns [false]
    at once: no register is read or written and the driver object is
    left as it was. *)
Theorem calibrate_bad_parameters (gain n_samples : Z) (s : state) :
  7 < gain \/ n_samples = 0 ->
  let r := calibrate gain n_samples s in
  fst r = false /\
  filter is_bus (journal (i2c_client (snd r)))
    = filter is_bus (journal (i2c_client s)) /\
  served (i2c_client (snd r)) = served (i2c_client s) /\
  dev (snd r) = dev s.
Proof.
  intros H. cbv zeta.
  rewrite calibrate_bad_parameters_run by lia. cbn.
  rewrite filter_app. cbn. rewrite app_nil_r. auto.
Qed.

Lemma id_matches_spec (id : byte * byte * byte) :
  id_matches id = true <-> id = ("H"%byte, "4"%byte, "3"%byte).
Proof.
  destruct id as [[a b] c]. unfold id_matches. split.
  - rewrite !andb_true_iff. intros [[Ha Hb] Hc].
    apply Byte.byte_dec_bl in Ha, Hb, Hc. congruence.
  - intros [= -> -> ->]. reflexivity.
Qed.

(** C6: with valid parameters, if the identity bytes are not
    ['H','4','3'], [calibrate] returns [false], writes no register at
    all, and leaves the driver object as it was. *)
Theorem calibrate_identity_mismatch (gain n_samples : Z) (s : state) :
  0 <= gain <= 7 -> 0 < n_samples ->
  fst (getID s) <> ("H"%byte, "4"%byte, "3"%byte) ->
  let r := calibrate gain n_samples s in
  fst r = false /\
  filter is_write (journal (i2c_client (snd r)))
    = filter is_write (journal (i2c_client s)) /\
  dev (snd r) = dev s.
Proof.
  intros Hg Hn Hid. cbv zeta.
  assert (Hm : id_matches (fst (getID s)) = false).
  { destruct (id_matches (fst (getID s))) eqn:E; [|reflexivity].
    apply id_matches_spec in E. contradiction. }
  rewrite (calibrate_stranger_run gain n_samples s (proj2 Hg) Hn Hm). cbn.
  rewrite filter_app. cbn. rewrite app_nil_r. auto.
Qed.

End SelfTest.

(** ** Register setters and raw acquisition *)

Section Accessors.

Context {hdr : Header} {tgt : Target}.

(** C7: [setMode] with a mode above 2, [setGain] with a gain above 7 and
    [setDOR] with a rate above 6 return without touching the bus: the
    journal, the bus and the driver object, scale factors included, are
    what they were. *)
Theorem setters_ignore_out_of_range (mode gain rate : Z) (s : state) :
  2 < mode -> 7 < gain -> 6 < rate ->
  setMode mode s = (tt, s) /\
  setGain gain s = (tt, s) /\
  setDOR rate s = (tt, s).
Proof.
  intros Hm Hg Hr. unfold setMode, setGain, setDOR.
  destruct (Z.gtb_spec mode 2); [|lia].
  destruct (Z.gtb_spec gain 7); [|lia].
  destruct (Z.gtb_spec rate 6); [|lia].
  repeat split.
Qed.

Lemma assemble_bytes (b0 b1 b2 b3 b4 b5 : byte) :
  assemble [b0; b1; b2; b3; b4; b5] =
  (be16 b0 b1,
   if ISHMC5843 then be16 b2 b3 else be16 b4 b5,
   if ISHMC5843 then be16 b4 b5 else be16 b2 b3).
Proof.
  unfold assemble, rx_at. cbn [nth].
  rewrite !IntFacts.to_int16_bytes. destruct ISHMC5843; reflexivity.
Qed.

(** C8: [getRaw] issues one read of six bytes from the first data
    register; whatever six bytes the buffer then holds, X is the signed
    16-bit big-endian value of bytes 0 and 1, and bytes 2-3 and 4-5 give
    Y and Z on the HMC5843, Z and Y on the HMC5883L. *)
Theorem getRaw_big_endian (b0 b1 b2 b3 b4 b5 : byte) (s : state) :
  data (script (i2c_client s) (served (i2c_client s)))
    = [b0; b1; b2; b3; b4; b5] ->
  let r := getRaw s in
  fst r = (be16 b0 b1,
           if ISHMC5843 then be16 b2 b3 else be16 b4 b5,
           if ISHMC5843 then be16 b4 b5 else be16 b2 b3) /\
  journal (i2c_client (snd r))
    = journal (i2c_client s) ++ [BusRead HMC58X3_ADDR HMC58X3_R_XM 6] /\
  dev (snd r) = dev s.
Proof.
  intros H. cbv zeta. rewrite getRaw_run. cbn [fst snd].
  unfold raw_of. rewrite H, assemble_bytes. repeat split.
Qed.

End Accessors.

(** ** The simple calibration *)

Section Simple.

Context {hdr : Header} {tgt : Target}.

Lemma assemble_int16 (rx : list byte) :
  let v := assemble rx in
  (-32768 <= xof v < 32768) /\ (-32768 <= yof v < 32768) /\
  (-32768 <= zof v < 32768).
Proof.
  cbv zeta. unfold assemble.
  pose proof (fun z => IntFacts.to_signed_range 16 z ltac:(lia)) as H.
  change (2 ^ (16 - 1)) with 32768 in H. unfold Int.to_int16.
  destruct ISHMC5843; cbn [xof yof zof fst snd]; auto.
Qed.

Lemma getValues_run (s : state) :
  getValues s =
  (let v := raw_of (i2c_client s) (served (i2c_client s)) in
   (Fp.fdiv (Fp.float_of_Z (xof v)) (x_scale (dev s)),
    Fp.fdiv (Fp.float_of_Z (yof v)) (y_scale (dev s)),
    Fp.fdiv (Fp.float_of_Z (zof v)) (z_scale (dev s))),
   advance s 1 [BusRead HMC58X3_ADDR HMC58X3_R_XM 6]).
Proof.
  unfold getValues. rewrite (bind_run _ _ _ _ _ (getRaw_run s)).
  cbv zeta. destruct (raw_of (i2c_client s) (served (i2c_client s)))
    as [[x y] z]. reflexivity.
Qed.

(** With unit scale factors a calibrated reading is the raw reading. *)
Lemma getValues_unit (s : state) :
  scales (dev s) = (Fp.float_of_Z 1, Fp.float_of_Z 1, Fp.float_of_Z 1) ->
  getValues s =
  (let v := raw_of (i2c_client s) (served (i2c_client s)) in
   (Fp.float_of_Z (xof v), Fp.float_of_Z (yof v), Fp.float_of_Z (zof v)),
   advance s 1 [BusRead HMC58X3_ADDR HMC58X3_R_XM 6]).
Proof.
  intros H. injection H as Hx Hy Hz. rewrite getValues_run. cbv zeta.
  rewrite Hx, Hy, Hz.
  destruct (assemble_int16
              (data (script (i2c_client s) (served (i2c_client s)))))
    as (Rx & Ry & Rz).
  unfold raw_of.
  rewrite !FpFacts.fdiv_one_int16 by assumption. reflexivity.
Qed.

Lemma max_loop_unit (k : nat) :
  forall (m : Fp.float * Fp.float * Fp.float) (s : state),
    scales (dev s) = (Fp.float_of_Z 1, Fp.float_of_Z 1, Fp.float_of_Z 1) ->
    let f := raw_of (i2c_client s) in
    let i := served (i2c_client s) in
    max_loop k m s =
    ((running_max (fun j => xof (f j)) i k (fst (fst m)),
      running_max (fun j => yof (f j)) i k (snd (fst m)),
      running_max (fun j => zof (f j)) i k (snd m)),
     advance s k (sampling k)).
Proof.
  induction k as [|k IH]; intros [[mx my] mz] s Hs; cbv zeta.
  - simpl. unfold ret. rewrite advance_nothing. reflexivity.
  - cbn [max_loop].
    rewrite (bind_run _ _ _ _ _ (setMode_run 1 s ltac:(lia))). cbv beta.
    rewrite (bind_run _ _ _ _ _
               (getValues_unit (advance s 0 _) Hs)). cbv zeta.
    cbv beta iota. rewrite IH by exact Hs. cbv zeta.
    rewrite !raw_of_advance, !served_advance, !advance_advance.
    cbn [fst snd running_max Nat.add].
    f_equal. f_equal. lia.
Qed.

Lemma ten_readings :
  Z.to_nat (Fp.to_signed_int cvt_undefined 32 (Fp.float_of_Z 10)) = 10%nat.
Proof. reflexivity. Qed.

Lemma advance_with_dev (d : HMC58X3) (s : state) (c : nat) (e : list event) :
  advance (with_dev d s) c e = with_dev d (advance s c e).
Proof. reflexivity. Qed.

(** The whole course of the simple calibration. *)
Lemma calibrate_gain_run (gain : Z) (s : state) :
  let f := raw_of (i2c_client s) in
  let i := served (i2c_client s) in
  let zero := Fp.float_of_Z 0 in
  let mx := running_max (fun j => xof (f j)) i 10 zero in
  let my := running_max (fun j => yof (f j)) i 10 zero in
  let mz := running_max (fun j => zof (f j)) i 10 zero in
  let max := fmax_step mz (fmax_step my (fmax_step mx zero)) in
  calibrate_gain gain s =
  (tt,
   with_dev {| x_scale := Fp.fdiv max mx; y_scale := Fp.fdiv max my;
               z_scale := Fp.fdiv max mz;
               x_max := mx; y_max := my; z_max := mz |}
     (advance s 10 (simple_journal gain))).
Proof.
  cbv zeta. unfold calibrate_gain.
  rewrite (bind_run get_dev _ s s (dev s) eq_refl).
  rewrite (bind_run (set_dev _) _ s (with_dev _ s) tt eq_refl). cbv beta.
  rewrite (bind_run _ _ _ _ _ (writeReg_run _ _ _)). cbv beta.
  rewrite advance_with_dev.
  assert (Hgain : setGain gain
                    (with_dev
                       {| x_scale := Fp.float_of_Z 1; y_scale := Fp.float_of_Z 1;
                          z_scale := Fp.float_of_Z 1;
                          x_max := x_max (dev s); y_max := y_max (dev s);
                          z_max := z_max (dev s) |}
                       (advance s 0 [write_ev HMC58X3_R_CONFA (16 + HMC_POS_BIAS)]))
                  = (tt,
                     with_dev
                       {| x_scale := Fp.float_of_Z 1; y_scale := Fp.float_of_Z 1;
                          z_scale := Fp.float_of_Z 1;
                          x_max := x_max (dev s); y_max := y_max (dev s);
                          z_max := z_max (dev s) |}
                       (advance s 0
                          ([write_ev HMC58X3_R_CONFA (16 + HMC_POS_BIAS)]
                           ++ (if gain >? 7 then []
                               else [write_ev HMC58X3_R_CONFB (Z.shiftl gain 5)]))))).
  { unfold setGain. destruct (gain >? 7).
    - unfold ret. rewrite app_nil_r. reflexivity.
    - rewrite writeReg_run, advance_with_dev, advance_advance. reflexivity. }
  rewrite (bind_run _ _ _ _ _ Hgain). cbv beta zeta.
  rewrite ten_readings.
  match goal with
  | |- context [bind (max_loop 10 ?m) _ ?st] =>
      rewrite (bind_run _ _ _ _ _ (max_loop_unit 10 m st eq_refl))
  end.
  cbv beta iota zeta. cbn [fst snd].
  rewrite advance_with_dev, advance_advance.
  unfold bind, set_dev, writeReg, _write, record, with_dev, advance,
    simple_journal.
  cbn [fst snd dev i2c_client script served journal Nat.add].
  rewrite <- !app_assoc. reflexivity.
Qed.

(** C10: whatever the gain, the simple calibration first sets the three
    scale factors to 1.0, so that its ten readings are the raw values:
    the maxima it keeps are the maxima of the raw samples, and the state
    it leaves does not depend on the scale factors, or on anything else
    in the driver object, it was called with. *)
Theorem calibrate_gain_resets_first (gain : Z) (s : state) (d : HMC58X3) :
  let r := snd (calibrate_gain gain s) in
  let f := raw_of (i2c_client s) in
  let i := served (i2c_client s) in
  let zero := Fp.float_of_Z 0 in
  calibrate_gain gain (with_dev d s) = calibrate_gain gain s /\
  x_max (dev r) = running_max (fun j => xof (f j)) i 10 zero /\
  y_max (dev r) = running_max (fun j => yof (f j)) i 10 zero /\
  z_max (dev r) = running_max (fun j => zof (f j)) i 10 zero /\
  served (i2c_client r) = (10 + i)%nat.
Proof.
  cbv zeta. rewrite !calibrate_gain_run. cbv zeta. cbn [fst snd].
  repeat split.
Qed.

End Simple.

(** ** The rounded reading *)

Section Rounded.

(** C9 (the code departs from it): in a driver fresh from its
    constructor, where every scale factor is 1.0, a raw reading of -3 on
    every axis is the calibrated value -3.0 on every axis, yet the
    [int16_t] overload of [getValues] returns -2: [(int16_t) (f + 0.5)]
    rounds toward zero after adding one half, which is rounding to
    nearest only from -0.5 upwards. *)
Theorem getValues_int16_negative (hdr : Header) (tgt : Target) :
  fst (getValues minus_three_session)
    = (Fp.float_of_Z (-3), Fp.float_of_Z (-3), Fp.float_of_Z (-3)) /\
  fst (getValues_int16 minus_three_session) = (-2, -2, -2).
Proof.
  destruct hdr as [chip addr confa confb mode xm ida pos neg lo hi gx gy gz].
  destruct chip; split; vm_compute; reflexivity.
Qed.

End Rounded.

(** ** The theorems at work on the example sessions *)

Section Examples.

#[local] Existing Instance hmc5883l_h.
#[local] Existing Instance indefinite_target.

Lemma calibrate_true_iff_witness :
  fst (calibrate 1 5 in_tolerance_session) = true <->
  (forall i, (i < 2 * 5)%nat ->
             saturated (sample in_tolerance_session i) = false) /\
  6791 <= self_test_total (fun i => xof (sample in_tolerance_session i)) 5
       <= 16070 /\
  6791 <= self_test_total (fun i => yof (sample in_tolerance_session i)) 5
       <= 16070 /\
  6791 <= self_test_total (fun i => zof (sample in_tolerance_session i)) 5
       <= 16070.
Proof.
  exact (calibrate_true_iff 1 5 in_tolerance_session
           ltac:(lia) ltac:(lia) eq_refl).
Defined.

Lemma calibrate_scale_factors_witness :
  fst (calibrate 1 5 in_tolerance_session) = true /\
  x_scale (dev (snd (calibrate 1 5 in_tolerance_session)))
    = S754_finite false 15152223 (-23) /\
  y_scale (dev (snd (calibrate 1 5 in_tolerance_session)))
    = S754_finite false 15152223 (-23) /\
  z_scale (dev (snd (calibrate 1 5 in_tolerance_session)))
    = S754_finite false 14107242 (-23).
Proof.
  split; [reflexivity|].
  exact (calibrate_scale_factors 1 5 in_tolerance_session
           ltac:(lia) ltac:(lia) eq_refl).
Defined.

Lemma calibrate_saturation_witness :
  hits_saturation (sample saturating_session) 0 5 /\
  fst (calibrate 1 5 saturating_session) = false /\
  served (i2c_client (snd (calibrate 1 5 saturating_session))) = 10%nat /\
  pos_reads (sample saturating_session) 5 = 3%nat /\
  count is_restore (journal (i2c_client (snd (calibrate 1 5 saturating_session))))
    = 1%nat.
Proof.
  assert (Hsat : hits_saturation (sample saturating_session) 0 5).
  { exists 2%nat. split; [lia|]. vm_compute. discriminate. }
  assert (Hbias : bias_patterns_set).
  { split; vm_compute; discriminate. }
  pose proof (calibrate_saturation 1 5 saturating_session
                ltac:(lia) ltac:(lia) eq_refl Hbias (or_introl Hsat))
    as (Hret & Hj & Hserved & Hpos & _ & _ & Hcount).
  split; [exact Hsat|]. split; [exact Hret|]. split; [exact Hserved|].
  split; [exact (proj1 (Hpos 2%nat eq_refl))|].
  rewrite Hj. exact Hcount.
Defined.

Lemma calibrate_bad_parameters_witness :
  fst (calibrate 8 5 in_tolerance_session) = false /\
  filter is_bus (journal (i2c_client (snd (calibrate 8 5 in_tolerance_session))))
    = [] /\
  served (i2c_client (snd (calibrate 8 5 in_tolerance_session))) = 0%nat /\
  dev (snd (calibrate 8 5 in_tolerance_session)) = dev in_tolerance_session.
Proof.
  assert (H : 7 < 8 \/ 5 = 0) by (left; lia).
  exact (calibrate_bad_parameters 8 5 in_tolerance_session H).
Defined.

Lemma calibrate_identity_mismatch_witness :
  fst (calibrate 1 5 stranger_session) = false /\
  filter is_write (journal (i2c_client (snd (calibrate 1 5 stranger_session))))
    = [] /\
  dev (snd (calibrate 1 5 stranger_session)) = dev stranger_session.
Proof.
  apply (calibrate_identity_mismatch 1 5 stranger_session);
    [lia | lia | vm_compute; discriminate].
Defined.

Lemma setters_ignore_out_of_range_witness :
  setMode 3 in_tolerance_session = (tt, in_tolerance_session) /\
  setGain 8 in_tolerance_session = (tt, in_tolerance_session) /\
  setDOR 7 in_tolerance_session = (tt, in_tolerance_session).
Proof.
  apply (setters_ignore_out_of_range 3 8 7 in_tolerance_session); lia.
Defined.

Lemma getRaw_big_endian_witness :
  (fst (getRaw axes_session) = (1, -3, 2) /\
   journal (i2c_client (snd (getRaw axes_session))) = [BusRead 30 3 6] /\
   dev (snd (getRaw axes_session)) = dev axes_session) /\
  fst (getRaw (hdr := hmc5843_h) axes_session) = (1, 2, -3).
Proof.
  split.
  - exact (getRaw_big_endian x00 x01 x00 x02 xff xfd axes_session eq_refl).
  - exact (proj1 (getRaw_big_endian (hdr := hmc5843_h)
                    x00 x01 x00 x02 xff xfd axes_session eq_refl)).
Defined.

(** C1 as the specification words it, with the limits left as the
    products they are, fails at gain 1 with one sample per phase: every
    total is 1358, the low product is a little above 1358, and the call
    still returns [true], because the limit it compares with has lost its
    fraction on the way into an [int32_t]. *)
Lemma calibrate_true_iff_as_stated_fails :
  ~ (fst (calibrate 1 1 boundary_session) = true <->
     (forall i, (i < 2 * 1)%nat ->
                saturated (sample boundary_session i) = false) /\
     stated_within (stated_limit SELF_TEST_LOW_LIMIT 1 1)
                   (stated_limit SELF_TEST_HIGH_LIMIT 1 1)
                   (self_test_total (fun i => xof (sample boundary_session i)) 1) /\
     stated_within (stated_limit SELF_TEST_LOW_LIMIT 1 1)
                   (stated_limit SELF_TEST_HIGH_LIMIT 1 1)
                   (self_test_total (fun i => yof (sample boundary_session i)) 1) /\
     stated_within (stated_limit SELF_TEST_LOW_LIMIT 1 1)
                   (stated_limit SELF_TEST_HIGH_LIMIT 1 1)
                   (self_test_total (fun i => zof (sample boundary_session i)) 1)).
Proof.
  intros [H _].
  assert (Hok : fst (calibrate 1 1 boundary_session) = true)
    by (vm_compute; reflexivity).
  destruct (H Hok) as (_ & (Hlo & _) & _).
  vm_compute in Hlo. discriminate.
Qed.

(** The figures of that session. *)
Lemma boundary_session_figures :
  self_test_total (fun i => xof (sample boundary_session i)) 1 = 1358 /\
  low_limit 1 1 = 1358 /\
  SFltb (Fp.double_of_Z 1358) (stated_limit SELF_TEST_LOW_LIMIT 1 1) = true /\
  SFltb (stated_limit SELF_TEST_LOW_LIMIT 1 1) (Fp.double_of_Z 1359) = true.
Proof. repeat split; vm_compute; reflexivity. Qed.

(** C2 as the specification words it, with the total divided by the
    number of samples as numbers, fails at gain 1 with five samples per
    phase and totals of 7004: the call succeeds and derives the scale
    factors from the integer quotient 1400, not from 1400.8. *)
Lemma calibrate_scale_factors_as_stated_fails :
  ~ (fst (calibrate 1 5 remainder_session) = true ->
     x_scale (dev (snd (calibrate 1 5 remainder_session)))
       = stated_scale HMC58X3_X_SELF_TEST_GAUSS 1
           (self_test_total (fun i => xof (sample remainder_session i)) 5) 5 /\
     y_scale (dev (snd (calibrate 1 5 remainder_session)))
       = stated_scale HMC58X3_Y_SELF_TEST_GAUSS 1
           (self_test_total (fun i => yof (sample remainder_session i)) 5) 5 /\
     z_scale (dev (snd (calibrate 1 5 remainder_session)))
       = stated_scale HMC58X3_Z_SELF_TEST_GAUSS 1
           (self_test_total (fun i => zof (sample remainder_session i)) 5) 5).
Proof.
  intros H.
  assert (Hok : fst (calibrate 1 5 remainder_session) = true)
    by (vm_compute; reflexivity).
  destruct (H Hok) as (Hx & _).
  vm_compute in Hx. discriminate.
Qed.

(** The figures of that session. *)
Lemma remainder_session_figures :
  self_test_total (fun i => xof (sample remainder_session i)) 5 = 7004 /\
  Int.to_uint32 7004 / 5 = 1400 /\
  x_scale (dev (snd (calibrate 1 5 remainder_session)))
    = x_scale (dev (snd (calibrate 1 5 in_tolerance_session))).
Proof. repeat split; vm_compute; reflexivity. Qed.

End Examples.

(** * Further properties of the driver *)

(** ** Sleeping *)

Section Sleeping.

(** X1: for every number of milliseconds an [unsigned long] of at least
    32 bits holds, the [timespec] of [delayMSec] is valid for [nanosleep]
    and stands for exactly that time: the nanoseconds are a whole number
    of milliseconds below one second, and seconds and nanoseconds add up
    to [num_ms]. *)
Theorem delay_timespec_exact (w num_ms : Z) :
  32 <= w -> 0 <= num_ms < 2 ^ w ->
  let tv_sec := fst (delay_timespec w num_ms) in
  let tv_nsec := snd (delay_timespec w num_ms) in
  0 <= tv_sec /\ 0 <= tv_nsec <= 999000000 /\
  tv_sec * 1000000000 + tv_nsec = num_ms * 1000000.
Proof.
  intros Hw Hms. cbv zeta. unfold delay_timespec. cbv zeta. cbn [fst snd].
  assert (H2 : 2 ^ w = 2 * 2 ^ (w - 1)).
  { replace w with (Z.succ (w - 1)) at 1 by lia. apply Z.pow_succ_r. lia. }
  assert (H31 : 2 ^ 31 <= 2 ^ (w - 1)) by (apply Z.pow_le_mono_r; lia).
  change (2 ^ 31) with 2147483648 in H31.
  unfold Int.to_unsigned. rewrite (Z.mod_small num_ms) by lia.
  pose proof (Z.mod_pos_bound num_ms 1000 ltac:(lia)) as Hr.
  pose proof (Z.div_mod num_ms 1000 ltac:(lia)) as Hd.
  assert (Hq : 0 <= num_ms / 1000) by (apply Z.div_pos; lia).
  rewrite (Z.mod_small (num_ms mod 1000 * 1000000)) by lia.
  rewrite !IntFacts.to_signed_small by lia. lia.
Qed.

Lemma delay_timespec_exact_witness :
  0 <= fst (delay_timespec 64 1500) /\
  0 <= snd (delay_timespec 64 1500) <= 999000000 /\
  fst (delay_timespec 64 1500) * 1000000000 + snd (delay_timespec 64 1500)
    = 1500 * 1000000.
Proof.
  apply (delay_timespec_exact 64 1500); [lia | split; [lia | reflexivity]].
Defined.

End Sleeping.

(** ** Configuration *)

Section Configuration.

Context {hdr : Header} {tgt : Target}.

Lemma small_cases (n hi : Z) (P : Z -> Prop) :
  0 <= n <= hi -> (forall i, (i <= Z.to_nat hi)%nat -> P (Z.of_nat i)) -> P n.
Proof.
  intros Hn H. replace n with (Z.of_nat (Z.to_nat n)) by lia. apply H. lia.
Qed.

(** X2: for a gain from 0 to 7, [setGain] makes one write, to
    configuration register B, and nothing else; the byte written carries
    the gain in its top three bits and zeros below, so the gain can be read
    back from it. *)
Theorem setGain_encoding (gain : Z) (s : state) :
  0 <= gain <= 7 ->
  exists v,
    setGain gain s
      = (tt, advance s 0 [BusWrite HMC58X3_ADDR (Int.to_uint8 HMC58X3_R_CONFB) v]) /\
    0 <= v < 256 /\ Z.shiftr v 5 = gain /\ Z.land v 31 = 0.
Proof.
  intros Hg. exists (Int.to_uint8 (Z.shiftl gain 5)). split.
  - rewrite setGain_run by lia. reflexivity.
  - revert Hg. intros Hg. pattern gain. apply (small_cases gain 7); [exact Hg|].
    intros i Hi. do 8 (destruct i as [|i]; [vm_compute; intuition congruence|]).
    simpl in Hi. lia.
Qed.

(** X3: for a rate from 0 to 6, [setDOR] makes one write, to
    configuration register A; the byte written carries the rate in bits 2
    to 4 and zeros elsewhere, so it also clears the bias bits below and the
    averaging bits above. *)
Theorem setDOR_encoding (rate : Z) (s : state) :
  0 <= rate <= 6 ->
  exists v,
    setDOR rate s
      = (tt, advance s 0 [BusWrite HMC58X3_ADDR (Int.to_uint8 HMC58X3_R_CONFA) v]) /\
    0 <= v < 32 /\ Z.shiftr v 2 = rate /\ Z.land v 3 = 0.
Proof.
  intros Hr. exists (Int.to_uint8 (Z.shiftl rate 2)). split.
  - unfold setDOR. destruct (Z.gtb_spec rate 6); [lia|]. apply writeReg_run.
  - pattern rate. apply (small_cases rate 6); [exact Hr|].
    intros i Hi. do 7 (destruct i as [|i]; [vm_compute; intuition congruence|]).
    simpl in Hi. lia.
Qed.

Lemma slept_app (a b : list event) : slept (a ++ b) = slept a + slept b.
Proof.
  induction a as [|e a IH]; [reflexivity|].
  destruct e; cbn [app slept]; rewrite IH; lia.
Qed.

(** X4: [init] sleeps 5 ms before it touches the bus; it then sets mode
    0 and waits 100 ms if asked to, and writes 0x70 to configuration
    register A, 0xA0 to configuration register B and 0 to the mode
    register, in this order.  It reads nothing and leaves the driver
    object alone. *)
Theorem init_sequence (setmode : bool) (s : state) :
  let r := snd (init setmode s) in
  let added :=
    Sleep 5
    :: (if setmode then [write_ev HMC58X3_R_MODE 0; Sleep 100] else [])
    ++ [write_ev HMC58X3_R_CONFA 0x70; write_ev HMC58X3_R_CONFB 0xA0;
        write_ev HMC58X3_R_MODE 0] in
  journal (i2c_client r) = journal (i2c_client s) ++ added /\
  served (i2c_client r) = served (i2c_client s) /\
  dev r = dev s /\
  slept added = (if setmode then 105 else 5).
Proof.
  cbv zeta. unfold init.
  rewrite (bind_run (delayMSec 5) _ s (advance s 0 [Sleep 5]) tt eq_refl).
  cbv beta. destruct setmode.
  - rewrite (bind_run _ _ _ _ _ (setMode_run 0 _ ltac:(lia))). cbv beta.
    rewrite advance_advance.
    rewrite (bind_run _ _ _ _ _ (writeReg_run _ _ _)). cbv beta.
    rewrite (bind_run _ _ _ _ _ (writeReg_run _ _ _)). cbv beta.
    rewrite writeReg_run, !advance_advance. cbn. repeat split.
  - rewrite (bind_run (ret tt) _ _ (advance s 0 [Sleep 5]) tt eq_refl). cbv beta.
    rewrite (bind_run _ _ _ _ _ (writeReg_run _ _ _)). cbv beta.
    rewrite (bind_run _ _ _ _ _ (writeReg_run _ _ _)). cbv beta.
    rewrite writeReg_run, !advance_advance. cbn. repeat split.
Qed.

End Configuration.

(** ** More on the self-test calibration *)

Section SelfTestMore.

Context {hdr : Header} {tgt : Target}.

Lemma slept_sampling (c : nat) : slept (sampling c) = 100 * Z.of_nat c.
Proof.
  induction c as [|c IH]; [reflexivity|].
  cbn [sampling]. unfold write_ev at 1. cbn [slept]. rewrite IH. lia.
Qed.

Lemma slept_notice (sat : bool) : slept (saturation_notice sat) = 0.
Proof. destruct sat; reflexivity. Qed.

Lemma slept_self_test (gain : Z) (c1 c2 : nat) (sat1 sat2 v : bool) :
  slept (self_test_journal gain c1 sat1 c2 sat2 v)
  = 100 * (1 + Z.of_nat c1 + Z.of_nat c2).
Proof.
  unfold self_test_journal.
  rewrite !slept_app, !slept_sampling, !slept_notice.
  destruct v; unfold write_ev; cbn [slept]; lia.
Qed.

Lemma first_saturated_ext (f g : nat -> vec3) (k : nat) :
  (forall i, f i = g i) ->
  forall start, first_saturated f start k = first_saturated g start k.
Proof.
  intros H. induction k as [|k IH]; intros start; [reflexivity|].
  simpl. rewrite H, IH. reflexivity.
Qed.

Lemma accumulated_ext (op : Z -> Z -> Z) (f g : nat -> vec3) (c : nat) :
  (forall i, f i = g i) ->
  forall start total,
    accumulated op f start c total = accumulated op g start c total.
Proof.
  intros H. induction c as [|c IH]; intros start total; [reflexivity|].
  simpl. rewrite H, IH. reflexivity.
Qed.

Lemma loop_totals_ext (f g : nat -> vec3) (k : nat) :
  (forall i, f i = g i) -> loop_totals f k = loop_totals g k.
Proof.
  intros H. unfold loop_totals, neg_reads, pos_reads, reads_taken.
  rewrite !(first_saturated_ext f g k H).
  rewrite !(accumulated_ext _ f g _ H). reflexivity.
Qed.

Lemma verdict_ext (gain n_samples : Z) (f g : nat -> vec3) :
  (forall i, f i = g i) -> verdict gain n_samples f = verdict gain n_samples g.
Proof.
  intros H. unfold verdict. cbv zeta.
  rewrite (loop_totals_ext f g _ H).
  unfold pos_saturates, neg_saturates, pos_reads, saturates, reads_taken.
  rewrite !(first_saturated_ext f g _ H). reflexivity.
Qed.

(** What [calibrate] returns and what it makes of the driver object, in
    terms of the identity and the samples alone. *)
Lemma calibrate_outcome (gain n_samples : Z) (s : state) :
  let pass :=
    (gain <=? 7) && (0 <? n_samples) && id_matches (fst (getID s))
    && verdict gain n_samples (sample s) in
  calibrate gain n_samples s
  = (pass,
     with_dev
       (if pass
        then with_scales
               (derived_scales gain n_samples
                  (loop_totals (sample s) (Z.to_nat n_samples))) (dev s)
        else dev s)
       (snd (calibrate gain n_samples s))).
Proof.
  cbv zeta.
  destruct (Z.leb_spec gain 7) as [Hg|Hg];
    [destruct (Z.ltb_spec 0 n_samples) as [Hn|Hn]|].
  - destruct (id_matches (fst (getID s))) eqn:Hid.
    + rewrite (calibrate_run gain n_samples s Hg Hn Hid). cbv zeta.
      cbn [andb snd]. destruct (verdict gain n_samples (sample s)); reflexivity.
    + rewrite (calibrate_stranger_run gain n_samples s Hg Hn Hid). reflexivity.
  - rewrite calibrate_bad_parameters_run by lia. reflexivity.
  - rewrite calibrate_bad_parameters_run by lia. reflexivity.
Qed.

(** X5: if the identity read reports failure, [getID] hands back zeros
    whatever the buffer holds, so a [calibrate] with valid parameters
    returns [false] after that one read, writes no register and leaves the
    driver object alone. *)
Theorem calibrate_failed_identity_read (gain n_samples : Z) (s : state) :
  0 <= gain <= 7 -> 0 < n_samples ->
  ok (script (i2c_client s) (served (i2c_client s))) = false ->
  let r := calibrate gain n_samples s in
  fst (getID s) = (x00, x00, x00) /\
  fst r = false /\
  served (i2c_client (snd r)) = S (served (i2c_client s)) /\
  filter is_write (journal (i2c_client (snd r)))
    = filter is_write (journal (i2c_client s)) /\
  dev (snd r) = dev s.
Proof.
  intros Hg Hn Hok. cbv zeta.
  assert (Hid : fst (getID s) = (x00, x00, x00)).
  { unfold getID, bind, _read. rewrite Hok. reflexivity. }
  split; [exact Hid|].
  rewrite (calibrate_stranger_run gain n_samples s (proj2 Hg) Hn)
    by (rewrite Hid; reflexivity).
  cbn. rewrite filter_app. cbn. rewrite app_nil_r. auto.
Qed.

(** X6: whenever the identity check passes, whatever the samples and
    whatever the result, the last thing [calibrate] does is write the
    default 0x10 to configuration register A, and it does so once. *)
Theorem calibrate_ends_restored (gain n_samples : Z) (s : state) :
  0 <= gain <= 7 -> 0 < n_samples ->
  id_matches (fst (getID s)) = true ->
  bias_patterns_set ->
  exists added,
    journal (i2c_client (snd (calibrate gain n_samples s)))
      = journal (i2c_client s) ++ added /\
    last added (Sleep 0) = write_ev HMC58X3_R_CONFA 0x010 /\
    count is_restore added = 1%nat.
Proof.
  intros Hg Hn Hid Hbias.
  rewrite (calibrate_run gain n_samples s (proj2 Hg) Hn Hid). cbv zeta.
  eexists. split; [reflexivity|]. split.
  - unfold self_test_journal. rewrite !app_assoc. apply last_last.
  - apply count_restore_self_test; assumption.
Qed.

(** X7: the reading taken right after the gain change is thrown away:
    two sessions that differ only in the reply to that read end with the
    same result and the same driver object. *)
Theorem calibrate_ignores_first_reading (gain n_samples : Z) (s s' : state) :
  dev s = dev s' ->
  served (i2c_client s) = served (i2c_client s') ->
  (forall i, i <> S (served (i2c_client s)) ->
             script (i2c_client s) i = script (i2c_client s') i) ->
  fst (calibrate gain n_samples s) = fst (calibrate gain n_samples s') /\
  dev (snd (calibrate gain n_samples s)) = dev (snd (calibrate gain n_samples s')).
Proof.
  intros Hdev Hserved Hscript.
  assert (Hid : fst (getID s) = fst (getID s')).
  { unfold getID, bind, _read. cbv beta iota zeta.
    rewrite <- Hserved, <- (Hscript (served (i2c_client s))) by lia.
    destruct (negb (ok _)); reflexivity. }
  assert (Hsample : forall i, sample s i = sample s' i).
  { intros i. unfold sample, raw_of.
    rewrite <- Hserved, <- Hscript by lia. reflexivity. }
  rewrite (calibrate_outcome gain n_samples s).
  rewrite (calibrate_outcome gain n_samples s'). cbv zeta. cbn [fst snd dev with_dev].
  rewrite <- Hid, <- Hdev.
  rewrite <- (verdict_ext gain n_samples _ _ Hsample).
  rewrite <- (loop_totals_ext _ _ _ Hsample). split; reflexivity.
Qed.

(** X8: the self-test works on raw readings, so it pays no heed to the
    scale factors in force: started from any driver object, it returns the
    same result, leaves the bus in the same state and, when it succeeds,
    arrives at the same scale factors. *)
Theorem calibrate_ignores_driver_object (gain n_samples : Z) (s : state)
    (d : HMC58X3) :
  let r := calibrate gain n_samples s in
  let r' := calibrate gain n_samples (with_dev d s) in
  fst r' = fst r /\
  i2c_client (snd r') = i2c_client (snd r) /\
  scales (dev (snd r')) = if fst r then scales (dev (snd r)) else scales d.
Proof.
  cbv zeta.
  assert (Hid : fst (getID (with_dev d s)) = fst (getID s)).
  { unfold getID, bind, _read. cbv beta iota zeta. cbn [i2c_client with_dev].
    destruct (negb (ok _)); reflexivity. }
  destruct (Z.le_gt_cases gain 7) as [Hg|Hg];
    [destruct (Z.lt_ge_cases 0 n_samples) as [Hn|Hn]|].
  - destruct (id_matches (fst (getID s))) eqn:Hm.
    + rewrite (calibrate_run gain n_samples s Hg Hn Hm).
      rewrite (calibrate_run gain n_samples (with_dev d s) Hg Hn)
        by (rewrite Hid; exact Hm).
      cbv zeta. cbn [fst snd].
      change (sample (with_dev d s)) with (sample s).
      destruct (verdict gain n_samples (sample s)); repeat split.
    + rewrite (calibrate_stranger_run gain n_samples s Hg Hn Hm).
      rewrite (calibrate_stranger_run gain n_samples (with_dev d s) Hg Hn)
        by (rewrite Hid; exact Hm).
      repeat split.
  - rewrite !calibrate_bad_parameters_run by lia. repeat split.
  - rewrite !calibrate_bad_parameters_run by lia. repeat split.
Qed.

(** X9: a [calibrate] that gets past the identity check makes between 4
    and [2 * n_samples + 2] reads, and sleeps 100 ms before each of them
    but the first. *)
Theorem calibrate_reads_and_sleeps (gain n_samples : Z) (s : state) :
  0 <= gain <= 7 -> 0 < n_samples ->
  id_matches (fst (getID s)) = true ->
  let r := snd (calibrate gain n_samples s) in
  exists c,
    served (i2c_client r) = (c + served (i2c_client s))%nat /\
    4 <= Z.of_nat c <= 2 * n_samples + 2 /\
    exists added,
      journal (i2c_client r) = journal (i2c_client s) ++ added /\
      slept added = 100 * (Z.of_nat c - 1).
Proof.
  intros Hg Hn Hid. cbv zeta.
  rewrite (calibrate_run gain n_samples s (proj2 Hg) Hn Hid). cbv zeta.
  cbn [snd].
  set (k := Z.to_nat n_samples).
  pose proof (reads_taken_le (sample s) 0 k) as Hp1.
  pose proof (reads_taken_pos (sample s) 0 k ltac:(subst k; lia)) as Hp0.
  pose proof (reads_taken_le (sample s) (pos_reads (sample s) k) k) as Hq1.
  pose proof (reads_taken_pos (sample s) (pos_reads (sample s) k) k
                ltac:(subst k; lia)) as Hq0.
  fold (pos_reads (sample s) k) in Hp1, Hp0.
  fold (neg_reads (sample s) k) in Hq1, Hq0.
  exists (neg_reads (sample s) k + pos_reads (sample s) k + 2)%nat.
  split; [reflexivity|]. split; [subst k; lia|].
  eexists. split; [reflexivity|]. rewrite slept_self_test. lia.
Qed.

(** X10: a [calibrate] that returns [true] has made exactly
    [2 * n_samples + 2] reads and has printed no diagnostic. *)
Theorem calibrate_success_is_silent (gain n_samples : Z) (s : state) :
  fst (calibrate gain n_samples s) = true ->
  let r := snd (calibrate gain n_samples s) in
  Z.of_nat (served (i2c_client r))
    = 2 * n_samples + 2 + Z.of_nat (served (i2c_client s)) /\
  filter is_diag (journal (i2c_client r))
    = filter is_diag (journal (i2c_client s)).
Proof.
  intros Hok. cbv zeta.
  destruct (calibrate_true_inv _ _ _ Hok) as (Hg & Hn & Hid & Hv).
  rewrite (calibrate_run gain n_samples s Hg Hn Hid). cbv zeta.
  rewrite Hv. apply verdict_true in Hv. destruct Hv as (Hp & Hq & _).
  cbn [snd].
  unfold neg_reads, neg_saturates, pos_reads, pos_saturates in *.
  rewrite (reads_taken_clean _ _ _ Hp) in *.
  rewrite (reads_taken_clean _ _ _ Hq), Hp, Hq.
  split.
  - unfold with_dev, advance. cbn [served i2c_client]. lia.
  - unfold with_dev, advance. cbn [journal i2c_client]. rewrite filter_app.
    assert (Hs : forall c, filter is_diag (sampling c) = []).
    { induction c as [|c IH]; [reflexivity|]. cbn. exact IH. }
    unfold self_test_journal. rewrite !filter_app, !Hs. cbn.
    rewrite app_nil_r. reflexivity.
Qed.

(** X11: with fewer than 32768 samples per phase the 32-bit totals never
    wrap around: a successful [calibrate] derives each scale factor from
    the plain sum of the positive-bias samples minus the plain sum of the
    negative-bias samples. *)
Theorem calibrate_totals_exact (gain n_samples : Z) (s : state) :
  fst (calibrate gain n_samples s) = true -> n_samples < 32768 ->
  let f := sample s in
  let k := Z.to_nat n_samples in
  let d := dev (snd (calibrate gain n_samples s)) in
  let plain g := sigma g 0 k - sigma g k k in
  x_scale d = self_test_scale HMC58X3_X_SELF_TEST_GAUSS gain
                (plain (fun i => xof (f i))) n_samples /\
  y_scale d = self_test_scale HMC58X3_Y_SELF_TEST_GAUSS gain
                (plain (fun i => yof (f i))) n_samples /\
  z_scale d = self_test_scale HMC58X3_Z_SELF_TEST_GAUSS gain
                (plain (fun i => zof (f i))) n_samples.
Proof.
  intros Hok Hn. cbv zeta.
  pose proof (calibrate_dev gain n_samples s) as Hd. cbv zeta in Hd.
  rewrite Hok in Hd. rewrite Hd, (calibrate_true_totals _ _ _ Hok).
  assert (Hr : forall i, (-32768 <= xof (sample s i) <= 32767) /\
                         (-32768 <= yof (sample s i) <= 32767) /\
                         (-32768 <= zof (sample s i) <= 32767)).
  { intros i. unfold sample, raw_of.
    pose proof (assemble_int16 (data (script (i2c_client s)
                  (i + (2 + served (i2c_client s)))))) as H.
    cbv zeta in H. lia. }
  destruct (calibrate_true_inv _ _ _ Hok) as (_ & Hpos & _).
  rewrite !self_test_total_exact by (try (intros i; apply Hr); lia).
  repeat split.
Qed.

End SelfTestMore.

(** ** More floating-point facts *)

Module FpMore.

Import Fp.

Lemma pos_iter_xO_value (p k : positive) :
  Z.pos (Pos.iter xO p k) = Z.pos p * 2 ^ Z.pos k.
Proof.
  induction k as [|k IH] using Pos.peano_ind.
  - simpl. lia.
  - rewrite Pos.iter_succ, Pos2Z.inj_xO, IH, Pos2Z.inj_succ.
    rewrite Z.pow_succ_r by lia. ring.
Qed.

(** An integer of fewer than 24 bits converts to a [float] of the same
    value, with a mantissa of 24 digits. *)
Lemma binary_round_small_value (s : bool) (p : positive) :
  Z.pos p < 2 ^ 24 ->
  exists m e,
    binary_round fprec femax s p 0 = S754_finite s m e /\
    digits2_pos m = 24%positive /\ -23 <= e <= 0 /\
    Z.shiftl (Z.pos m) e = Z.pos p.
Proof.
  intros Hp. pose proof (FpFacts.digits2_pos_lower p) as Hl.
  assert (Hd : Z.pos (digits2_pos p) <= 24).
  { destruct (Z.le_gt_cases (Z.pos (digits2_pos p)) 24) as [H|H]; [exact H|].
    exfalso. assert (2 ^ 24 <= 2 ^ (Z.pos (digits2_pos p) - 1))
      by (apply Z.pow_le_mono_r; lia). lia. }
  unfold binary_round.
  replace (fexp fprec femax (Z.pos (digits2_pos p) + 0))
    with (Z.pos (digits2_pos p) - 24)
    by (unfold fexp, emin, fprec, femax; lia).
  unfold shl_align.
  destruct (Z.pos (digits2_pos p) - 24 - 0) as [|k|k] eqn:Hk.
  - exists p, 0. rewrite FpFacts.round_aux_canonical; [|lia|lia].
    repeat split; try lia.
  - lia.
  - exists (Pos.iter xO p k), (Z.pos (digits2_pos p) - 24).
    assert (Hdig : digits2_pos (Pos.iter xO p k) = 24%positive).
    { rewrite FpFacts.digits2_pos_shift. lia. }
    rewrite FpFacts.round_aux_canonical; [|exact Hdig|lia].
    repeat split; [exact Hdig|lia|lia|].
    replace (Z.pos (digits2_pos p) - 24) with (- Z.pos k) by lia.
    rewrite Z.shiftl_opp_r, Z.shiftr_div_pow2 by lia.
    rewrite pos_iter_xO_value. apply Z.div_mul.
    apply Z.pow_nonzero; lia.
Qed.

Lemma float_of_Z_pos (v : Z) : 0 < v < 2 ^ 24 -> posfin (float_of_Z v).
Proof.
  intros Hv. destruct v as [|p|p]; try lia.
  unfold float_of_Z. cbn [binary_normalize].
  destruct (binary_round_small_value false p ltac:(lia)) as (m & e & H & Hd & He & _).
  exists m, e. auto.
Qed.

Lemma float_of_Z_neg (v : Z) :
  - 2 ^ 24 < v < 0 -> exists m e, float_of_Z v = S754_finite true m e.
Proof.
  intros Hv. destruct v as [|p|p]; try lia.
  unfold float_of_Z. cbn [binary_normalize].
  destruct (binary_round_small_value true p ltac:(lia)) as (m & e & H & _).
  exists m, e. exact H.
Qed.

Lemma truncate_float_of_Z (v : Z) :
  - 2 ^ 24 < v < 2 ^ 24 -> truncate (float_of_Z v) = Some v.
Proof.
  intros Hv. destruct v as [|p|p].
  - reflexivity.
  - unfold float_of_Z. cbn [binary_normalize].
    destruct (binary_round_small_value false p ltac:(lia))
      as (m & e & -> & _ & _ & Hval).
    cbn [truncate cond_Zopp]. rewrite Hval. reflexivity.
  - unfold float_of_Z. cbn [binary_normalize].
    destruct (binary_round_small_value true p ltac:(lia))
      as (m & e & -> & _ & _ & Hval).
    cbn [truncate cond_Zopp]. rewrite Hval. reflexivity.
Qed.

Lemma div_eucl_self_shift (m : positive) :
  Z.div_eucl (Z.shiftl (Z.pos m) 24) (Z.pos m) = (16777216, 0).
Proof.
  pose proof (Z.div_eucl_eq (Z.shiftl (Z.pos m) 24) (Z.pos m) ltac:(lia)) as Heq.
  pose proof (Z.mod_pos_bound (Z.shiftl (Z.pos m) 24) (Z.pos m) ltac:(lia)) as Hb.
  unfold Z.modulo in Hb.
  destruct (Z.div_eucl (Z.shiftl (Z.pos m) 24) (Z.pos m)) as [q r].
  rewrite Z.shiftl_mul_pow2 in Heq by lia. change (2 ^ 24) with 16777216 in Heq.
  assert (q = 16777216) by nia. f_equal; nia.
Qed.

(** Such a number divided by itself is 1.0. *)
Lemma fdiv_self (x : float) : posfin x -> fdiv x x = float_of_Z 1.
Proof.
  intros (m & e & -> & Hd & He).
  unfold fdiv, SFdiv, SFdiv_core_binary. cbn [Zdigits2]. rewrite Hd.
  replace (24 + e - (24 + e)) with 0 by lia.
  replace (e - e) with 0 by lia.
  change (Z.min (fexp fprec femax 0) 0) with (-24).
  change (0 - -24) with 24. cbv iota.
  rewrite div_eucl_self_shift.
  assert (Hloc : new_location (Z.pos m) 0 = loc_Exact).
  { unfold new_location, new_location_even, new_location_odd.
    destruct (Z.even (Z.pos m)); reflexivity. }
  rewrite Hloc. reflexivity.
Qed.

Lemma fmax_step_no_gain (v : Z) (m : float) :
  - 2 ^ 24 < v <= 0 -> zero_or_posfin m -> fmax_step (float_of_Z v) m = m.
Proof.
  intros Hv Hm. unfold fmax_step, fgt, SFltb.
  destruct (Z.eq_dec v 0) as [->|Hnz].
  - destruct Hm as [->|(m' & e' & -> & _)]; reflexivity.
  - destruct (float_of_Z_neg v ltac:(lia)) as (mv & ev & ->).
    destruct Hm as [->|(m' & e' & -> & _)]; reflexivity.
Qed.

Lemma fmax_step_shape (a b : float) :
  zero_or_posfin a -> zero_or_posfin b ->
  (fmax_step a b = a \/ fmax_step a b = b) /\
  zero_or_posfin (fmax_step a b) /\
  (posfin a \/ posfin b -> posfin (fmax_step a b)).
Proof.
  intros Ha Hb. unfold fmax_step.
  split; [destruct (fgt a b); auto|].
  split; [destruct (fgt a b); auto|].
  intros [Hp|Hp].
  - destruct Hb as [->|Hb].
    + destruct Hp as (m & e & -> & Hd & He). unfold fgt, SFltb. cbn.
      exists m, e. auto.
    + destruct (fgt a b); auto.
  - destruct Ha as [->|Ha].
    + destruct Hp as (m & e & -> & Hd & He). unfold fgt, SFltb. cbn.
      exists m, e. auto.
    + destruct (fgt a b); auto.
Qed.

Section RunningMax.

Variable g : nat -> Z.
Hypothesis g_int16 : forall j, -32768 <= g j <= 32767.

Lemma float_of_sample_shape (j : nat) :
  (g j <= 0 /\ forall m, zero_or_posfin m -> fmax_step (float_of_Z (g j)) m = m)
  \/ posfin (float_of_Z (g j)).
Proof.
  specialize (g_int16 j).
  destruct (Z.le_gt_cases (g j) 0) as [H|H].
  - left. split; [exact H|]. intros m Hm. apply fmax_step_no_gain; [|exact Hm].
    change (2 ^ 24) with 16777216. lia.
  - right. apply float_of_Z_pos. change (2 ^ 24) with 16777216. lia.
Qed.

Lemma running_max_shape (c : nat) :
  forall start m, zero_or_posfin m -> zero_or_posfin (running_max g start c m).
Proof.
  induction c as [|c IH]; intros start m Hm; [exact Hm|].
  cbn [running_max]. apply IH.
  destruct (float_of_sample_shape start) as [[_ H]|H].
  - rewrite H by exact Hm. exact Hm.
  - apply (fmax_step_shape _ m (or_intror H) Hm).
Qed.

Lemma running_max_posfin (c : nat) :
  forall start m, posfin m -> posfin (running_max g start c m).
Proof.
  induction c as [|c IH]; intros start m Hm; [exact Hm|].
  cbn [running_max]. apply IH.
  destruct (float_of_sample_shape start) as [[_ H]|H].
  - rewrite H by (right; exact Hm). exact Hm.
  - apply (fmax_step_shape _ m (or_intror H) (or_intror Hm)). auto.
Qed.

(** Without a positive value the maximum stays where it started. *)
Lemma running_max_nonpositive (c : nat) :
  forall start m,
    zero_or_posfin m ->
    (forall j, (j < c)%nat -> g (j + start) <= 0) ->
    running_max g start c m = m.
Proof.
  induction c as [|c IH]; intros start m Hm Hg; [reflexivity|].
  cbn [running_max].
  rewrite fmax_step_no_gain.
  - apply IH; [exact Hm|]. intros j Hj. specialize (Hg (S j) ltac:(lia)).
    rewrite Nat.add_succ_r. exact Hg.
  - specialize (Hg 0%nat ltac:(lia)). specialize (g_int16 start). simpl in Hg.
    change (2 ^ 24) with 16777216. lia.
  - exact Hm.
Qed.

(** With a positive value the maximum is positive. *)
Lemma running_max_positive (c : nat) :
  forall start m,
    zero_or_posfin m ->
    (exists j, (j < c)%nat /\ 0 < g (j + start)) ->
    posfin (running_max g start c m).
Proof.
  induction c as [|c IH]; intros start m Hm (j & Hj & Hpos); [lia|].
  cbn [running_max]. destruct j as [|j].
  - simpl in Hpos. apply running_max_posfin.
    apply (fmax_step_shape (float_of_Z (g start)) m).
    + right. apply float_of_Z_pos. specialize (g_int16 start).
      change (2 ^ 24) with 16777216. lia.
    + exact Hm.
    + left. apply float_of_Z_pos. specialize (g_int16 start).
      change (2 ^ 24) with 16777216. lia.
  - apply IH.
    + destruct (float_of_sample_shape start) as [[_ H]|H].
      * rewrite H by exact Hm. exact Hm.
      * apply (fmax_step_shape _ m (or_intror H) Hm).
    + exists j. split; [lia|]. rewrite Nat.add_succ_r. exact Hpos.
Qed.

End RunningMax.

Lemma digits2_pos_upper (p : positive) :
  Z.pos p < 2 ^ Z.pos (digits2_pos p).
Proof.
  induction p as [p IH|p IH|]; simpl digits2_pos.
  - rewrite Pos2Z.inj_succ, Z.pow_succ_r by lia. lia.
  - rewrite Pos2Z.inj_succ, Z.pow_succ_r by lia. lia.
  - simpl. lia.
Qed.

Lemma posfin_bounds (x : float) :
  posfin x ->
  exists m e, x = S754_finite false m e /\
              8388608 <= Z.pos m < 16777216 /\ -23 <= e <= 0.
Proof.
  intros (m & e & -> & Hd & He). exists m, e. split; [reflexivity|].
  pose proof (FpFacts.digits2_pos_lower m) as Hl.
  pose proof (digits2_pos_upper m) as Hu. rewrite Hd in Hl, Hu.
  change (2 ^ (24 - 1)) with 8388608 in Hl.
  change (2 ^ 24) with 16777216 in Hu. lia.
Qed.

(** On zero and the [posfin] values the [float] comparison is the
    comparison of ranks. *)
Lemma ltb_rank (x y : float) :
  zero_or_posfin x -> zero_or_posfin y -> SFltb x y = (rank x <? rank y).
Proof.
  intros [->|Hx] [->|Hy].
  - reflexivity.
  - destruct (posfin_bounds y Hy) as (m & e & -> & Hm & He).
    unfold rank. change (2 ^ 24) with 16777216. change (2 ^ 30) with 1073741824.
    cbn. symmetry. apply Z.ltb_lt. lia.
  - destruct (posfin_bounds x Hx) as (m & e & -> & Hm & He).
    unfold rank. change (2 ^ 24) with 16777216. change (2 ^ 30) with 1073741824.
    cbn. symmetry. apply Z.ltb_ge. lia.
  - destruct (posfin_bounds x Hx) as (m1 & e1 & -> & Hm1 & He1).
    destruct (posfin_bounds y Hy) as (m2 & e2 & -> & Hm2 & He2).
    unfold rank, SFltb, SFcompare. change (2 ^ 24) with 16777216.
    destruct (Z.compare_spec e1 e2) as [->|Hlt|Hgt].
    + change (Pos.compare_cont Eq m1 m2) with (Pos.compare m1 m2).
      destruct (Pos.compare_spec m1 m2) as [->|H|H]; symmetry.
      * apply Z.ltb_irrefl.
      * apply Z.ltb_lt. lia.
      * apply Z.ltb_ge. lia.
    + symmetry. apply Z.ltb_lt. lia.
    + symmetry. apply Z.ltb_ge. lia.
Qed.

Lemma rank_inj (x y : float) :
  zero_or_posfin x -> zero_or_posfin y -> rank x = rank y -> x = y.
Proof.
  intros [->|Hx] [->|Hy] H.
  - reflexivity.
  - destruct (posfin_bounds y Hy) as (m & e & -> & Hm & He).
    unfold rank in H. change (2 ^ 24) with 16777216 in H.
    change (2 ^ 30) with 1073741824 in H. cbn in H. lia.
  - destruct (posfin_bounds x Hx) as (m & e & -> & Hm & He).
    unfold rank in H. change (2 ^ 24) with 16777216 in H.
    change (2 ^ 30) with 1073741824 in H. cbn in H. lia.
  - destruct (posfin_bounds x Hx) as (m1 & e1 & -> & Hm1 & He1).
    destruct (posfin_bounds y Hy) as (m2 & e2 & -> & Hm2 & He2).
    unfold rank in H. change (2 ^ 24) with 16777216 in H.
    assert (e1 = e2) by lia. subst e2.
    assert (m1 = m2) by lia. subst m2. reflexivity.
Qed.

Lemma rank_zero_posfin (x : float) :
  zero_or_posfin x -> (posfin x <-> rank (float_of_Z 0) < rank x).
Proof.
  intros H. split.
  - intros Hp. destruct (posfin_bounds x Hp) as (m & e & -> & Hm & He).
    unfold rank. change (2 ^ 24) with 16777216. change (2 ^ 30) with 1073741824.
    cbn. lia.
  - intros Hr. destruct H as [->|Hp]; [lia | exact Hp].
Qed.

Lemma rank_fmax_step (a b : float) :
  zero_or_posfin a -> zero_or_posfin b ->
  rank (fmax_step a b) = Z.max (rank a) (rank b).
Proof.
  intros Ha Hb. unfold fmax_step, fgt. rewrite (ltb_rank b a Hb Ha).
  destruct (Z.ltb_spec (rank b) (rank a)); lia.
Qed.

End FpMore.

(** ** Readings at unit scale *)

Section ReadingsMore.

Context {hdr : Header} {tgt : Target}.

Lemma all_from_spec (p : Z -> bool) (k : nat) :
  forall z, all_from k z p = true ->
            forall v, z <= v < z + Z.of_nat k -> p v = true.
Proof.
  induction k as [|k IH]; intros z H v Hv; [lia|].
  cbn [all_from] in H. apply andb_true_iff in H. destruct H as [Hz Hrest].
  destruct (Z.eq_dec v z) as [->|Hne]; [exact Hz|].
  apply (IH (z + 1) Hrest). lia.
Qed.

(** Checked on each of the 65536 values. *)
Lemma round_int16_exhaustive :
  all_from (Z.to_nat 65536) (-32768) rounds_as_expected = true.
Proof. vm_compute. reflexivity. Qed.

Lemma round_int16_of_int16 (v : Z) :
  -32768 <= v <= 32767 ->
  round_int16 (Fp.float_of_Z v) = half_then_truncate v.
Proof.
  intros Hv. apply Z.eqb_eq.
  apply (all_from_spec rounds_as_expected _ _ round_int16_exhaustive).
  rewrite Z2Nat.id by lia. lia.
Qed.

(** X12: while the scale factors are 1.0, as the constructor leaves them,
    the [float] overload of [getValues] returns the raw reading itself:
    each component is the 16-bit value converted without loss, and
    truncating it gives the raw value back. *)
Theorem getValues_unit_scale_exact (s : state) :
  scales (dev s) = (Fp.float_of_Z 1, Fp.float_of_Z 1, Fp.float_of_Z 1) ->
  let raw := raw_of (i2c_client s) (served (i2c_client s)) in
  fst (getValues s)
    = (Fp.float_of_Z (xof raw), Fp.float_of_Z (yof raw), Fp.float_of_Z (zof raw)) /\
  Fp.truncate (Fp.float_of_Z (xof raw)) = Some (xof raw) /\
  Fp.truncate (Fp.float_of_Z (yof raw)) = Some (yof raw) /\
  Fp.truncate (Fp.float_of_Z (zof raw)) = Some (zof raw).
Proof.
  intros Hs. cbv zeta. rewrite (getValues_unit s Hs). cbv zeta. cbn [fst].
  split; [reflexivity|].
  destruct (assemble_int16
              (data (script (i2c_client s) (served (i2c_client s)))))
    as (Rx & Ry & Rz).
  unfold raw_of.
  rewrite !FpMore.truncate_float_of_Z
    by (change (2 ^ 24) with 16777216; lia).
  repeat split.
Qed.

(** X13: while the scale factors are 1.0, the [int16_t] overload of
    [getValues] returns a raw component that is zero or positive as it is,
    and a negative one increased by one. *)
Theorem getValues_int16_unit_scale (s : state) :
  scales (dev s) = (Fp.float_of_Z 1, Fp.float_of_Z 1, Fp.float_of_Z 1) ->
  let raw := raw_of (i2c_client s) (served (i2c_client s)) in
  fst (getValues_int16 s)
    = (half_then_truncate (xof raw), half_then_truncate (yof raw),
       half_then_truncate (zof raw)).
Proof.
  intros Hs. cbv zeta. unfold getValues_int16.
  rewrite (bind_run _ _ _ _ _ (getValues_unit s Hs)). cbv beta iota zeta.
  cbn [fst ret].
  destruct (assemble_int16
              (data (script (i2c_client s) (served (i2c_client s)))))
    as (Rx & Ry & Rz).
  unfold raw_of. unfold ret. cbn [fst].
  rewrite !round_int16_of_int16 by lia. reflexivity.
Qed.

End ReadingsMore.

(** ** More on the simple calibration *)

Section SimpleMore.

Context {hdr : Header} {tgt : Target}.

Lemma raw_component_int16 (a : axis) (b : I2Ckernel) (j : nat) :
  -32768 <= component a (raw_of b j) <= 32767.
Proof.
  pose proof (assemble_int16 (data (script b j))) as H. cbv zeta in H.
  unfold raw_of. destruct a; cbn [component]; lia.
Qed.

(** X14: the simple calibration takes exactly ten readings, sleeping
    100 ms before each, prints nothing and ends by writing the default
    0x10 to configuration register A; a gain above 7 only leaves out the
    write of the gain. *)
Theorem calibrate_gain_effects (gain : Z) (s : state) :
  let r := snd (calibrate_gain gain s) in
  let added :=
    write_ev HMC58X3_R_CONFA (0x010 + HMC_POS_BIAS)
    :: (if gain >? 7 then [] else [write_ev HMC58X3_R_CONFB (Z.shiftl gain 5)])
    ++ sampling 10 ++ [write_ev HMC58X3_R_CONFA 0x010] in
  journal (i2c_client r) = journal (i2c_client s) ++ added /\
  served (i2c_client r) = (10 + served (i2c_client s))%nat /\
  slept added = 1000 /\
  filter is_diag added = [].
Proof.
  cbv zeta. rewrite calibrate_gain_run. cbv zeta. cbn [snd].
  split; [reflexivity|]. split; [reflexivity|].
  destruct (gain >? 7); split; reflexivity.
Qed.

(** The three maxima the simple calibration arrives at. *)
Lemma calibrate_gain_maxima (gain : Z) (s : state) (a : axis) :
  max_of a (dev (snd (calibrate_gain gain s)))
  = running_max (fun j => component a (raw_of (i2c_client s) j))
      (served (i2c_client s)) 10 (Fp.float_of_Z 0).
Proof.
  rewrite calibrate_gain_run. cbv zeta. destruct a; reflexivity.
Qed.

Lemma calibrate_gain_scale (gain : Z) (s : state) (a : axis) :
  let d := dev (snd (calibrate_gain gain s)) in
  scale_of a d
  = Fp.fdiv (fmax_step (max_of AxisZ d)
               (fmax_step (max_of AxisY d)
                  (fmax_step (max_of AxisX d) (Fp.float_of_Z 0))))
            (max_of a d).
Proof.
  cbv zeta. rewrite calibrate_gain_run. cbv zeta. destruct a; reflexivity.
Qed.

Lemma maxima_shape (gain : Z) (s : state) (a : axis) :
  zero_or_posfin (max_of a (dev (snd (calibrate_gain gain s)))).
Proof.
  rewrite calibrate_gain_maxima. apply FpMore.running_max_shape.
  - intros j. apply raw_component_int16.
  - left. reflexivity.
Qed.

Lemma overall_shape (gain : Z) (s : state) :
  let d := dev (snd (calibrate_gain gain s)) in
  let overall :=
    fmax_step (max_of AxisZ d)
      (fmax_step (max_of AxisY d)
         (fmax_step (max_of AxisX d) (Fp.float_of_Z 0))) in
  zero_or_posfin overall /\
  rank overall
  = Z.max (rank (max_of AxisZ d))
      (Z.max (rank (max_of AxisY d))
         (Z.max (rank (max_of AxisX d)) (rank (Fp.float_of_Z 0)))).
Proof.
  cbv zeta.
  pose proof (maxima_shape gain s AxisX) as Hx.
  pose proof (maxima_shape gain s AxisY) as Hy.
  pose proof (maxima_shape gain s AxisZ) as Hz.
  destruct (FpMore.fmax_step_shape _ (Fp.float_of_Z 0) Hx (or_introl eq_refl))
    as (_ & H1 & _).
  destruct (FpMore.fmax_step_shape _ _ Hy H1) as (_ & H2 & _).
  destruct (FpMore.fmax_step_shape _ _ Hz H2) as (_ & H3 & _).
  split; [exact H3|].
  rewrite (FpMore.rank_fmax_step _ _ Hz H2), (FpMore.rank_fmax_step _ _ Hy H1).
  rewrite (FpMore.rank_fmax_step _ _ Hx (or_introl eq_refl)). reflexivity.
Qed.

Lemma live_axis_posfin (gain : Z) (s : state) (a : axis) :
  (exists j, (j < 10)%nat /\
     0 < component a (raw_of (i2c_client s) (j + served (i2c_client s)))) ->
  posfin (max_of a (dev (snd (calibrate_gain gain s)))).
Proof.
  intros H. rewrite calibrate_gain_maxima.
  apply (FpMore.running_max_positive
           (fun j => component a (raw_of (i2c_client s) j))).
  - intros i. apply raw_component_int16.
  - left. reflexivity.
  - exact H.
Qed.

Lemma dead_axis_zero (gain : Z) (s : state) (a : axis) :
  (forall j, (j < 10)%nat ->
     component a (raw_of (i2c_client s) (j + served (i2c_client s))) <= 0) ->
  max_of a (dev (snd (calibrate_gain gain s))) = Fp.float_of_Z 0.
Proof.
  intros H. rewrite calibrate_gain_maxima.
  apply (FpMore.running_max_nonpositive
           (fun j => component a (raw_of (i2c_client s) j))).
  - intros j. apply raw_component_int16.
  - left. reflexivity.
  - exact H.
Qed.

(** X15: the simple calibration has no failure path.  If an axis shows
    no positive value in the ten readings, its maximum stays 0 and its
    scale factor becomes a quotient by zero: NaN when no axis shows a
    positive value, +infinity when another axis does.  Every calibrated
    reading of that axis is from then on NaN or zero. *)
Theorem calibrate_gain_dead_axis (a : axis) (gain : Z) (s : state) :
  (forall j, (j < 10)%nat ->
             component a (raw_of (i2c_client s) (j + served (i2c_client s))) <= 0) ->
  let d := dev (snd (calibrate_gain gain s)) in
  max_of a d = Fp.float_of_Z 0 /\
  ((forall b j, (j < 10)%nat ->
      component b (raw_of (i2c_client s) (j + served (i2c_client s))) <= 0) ->
   scale_of a d = S754_nan) /\
  ((exists b j, (j < 10)%nat /\
      0 < component b (raw_of (i2c_client s) (j + served (i2c_client s)))) ->
   scale_of a d = S754_infinity false) /\
  (scale_of a d = S754_nan \/ scale_of a d = S754_infinity false) /\
  (forall v, -32768 <= v <= 32767 ->
             Fp.fdiv (Fp.float_of_Z v) (scale_of a d) = S754_nan \/
             exists sg, Fp.fdiv (Fp.float_of_Z v) (scale_of a d) = S754_zero sg).
Proof.
  intros Hdead. cbv zeta.
  pose proof (dead_axis_zero gain s a Hdead) as Hmax.
  pose proof (calibrate_gain_scale gain s a) as Hsc. cbv zeta in Hsc.
  destruct (overall_shape gain s) as (Hshape & Hrank).
  assert (Hnone :
    (forall b j, (j < 10)%nat ->
       component b (raw_of (i2c_client s) (j + served (i2c_client s))) <= 0) ->
    scale_of a (dev (snd (calibrate_gain gain s))) = S754_nan).
  { intros Hall. rewrite Hsc, Hmax.
    rewrite (dead_axis_zero gain s AxisX (Hall AxisX)).
    rewrite (dead_axis_zero gain s AxisY (Hall AxisY)).
    rewrite (dead_axis_zero gain s AxisZ (Hall AxisZ)). reflexivity. }
  assert (Hsome :
    (exists b j, (j < 10)%nat /\
       0 < component b (raw_of (i2c_client s) (j + served (i2c_client s)))) ->
    scale_of a (dev (snd (calibrate_gain gain s))) = S754_infinity false).
  { intros (b & j & Hj & Hpos).
    assert (Hb : posfin (max_of b (dev (snd (calibrate_gain gain s)))))
      by (apply live_axis_posfin; eauto).
    apply (FpMore.rank_zero_posfin _ (maxima_shape gain s b)) in Hb.
    assert (Hp : posfin
                   (fmax_step (max_of AxisZ (dev (snd (calibrate_gain gain s))))
                      (fmax_step (max_of AxisY (dev (snd (calibrate_gain gain s))))
                         (fmax_step (max_of AxisX (dev (snd (calibrate_gain gain s))))
                            (Fp.float_of_Z 0))))).
    { apply (FpMore.rank_zero_posfin _ Hshape). rewrite Hrank.
      destruct b; lia. }
    rewrite Hsc, Hmax. destruct Hp as (m & e & -> & _). reflexivity. }
  assert (Hscale : scale_of a (dev (snd (calibrate_gain gain s))) = S754_nan \/
                   scale_of a (dev (snd (calibrate_gain gain s)))
                   = S754_infinity false).
  { rewrite Hsc, Hmax.
    destruct Hshape as [->|(m & e & -> & _)]; [left|right]; reflexivity. }
  split; [exact Hmax|]. split; [exact Hnone|]. split; [exact Hsome|].
  split; [exact Hscale|].
  intros v Hv.
  assert (Hf : Fp.float_of_Z v = S754_zero false \/
               exists sg m e, Fp.float_of_Z v = S754_finite sg m e).
  { destruct (Z.lt_trichotomy v 0) as [H|[->|H]].
    - destruct (FpMore.float_of_Z_neg v) as (m & e & E);
        [change (2 ^ 24) with 16777216; lia|]. right. eauto.
    - left. reflexivity.
    - destruct (FpMore.float_of_Z_pos v) as (m & e & E & _);
        [change (2 ^ 24) with 16777216; lia|]. right. eauto. }
  destruct Hscale as [->| ->].
  - left. destruct Hf as [->|(sg & m & e & ->)]; reflexivity.
  - right. destruct Hf as [->|(sg & m & e & ->)]; eexists; reflexivity.
Qed.

(** X16: if some axis shows a positive value in the ten readings, the
    simple calibration gives the axis that holds the greatest maximum (an
    axis whose maximum no other maximum exceeds, in the comparison the
    code uses) a scale factor of exactly 1.0, and there is such an axis:
    the scale factors it computes are relative to that axis. *)
Theorem calibrate_gain_normalises (gain : Z) (s : state) :
  (exists a j, (j < 10)%nat /\
     0 < component a (raw_of (i2c_client s) (j + served (i2c_client s)))) ->
  let d := dev (snd (calibrate_gain gain s)) in
  (forall a, (forall b, Fp.fgt (max_of b d) (max_of a d) = false) ->
             scale_of a d = Fp.float_of_Z 1) /\
  (exists a, forall b, Fp.fgt (max_of b d) (max_of a d) = false).
Proof.
  intros (a0 & j & Hj & Hpos). cbv zeta.
  assert (Hp0 : posfin (max_of a0 (dev (snd (calibrate_gain gain s)))))
    by (apply live_axis_posfin; eauto).
  apply (FpMore.rank_zero_posfin _ (maxima_shape gain s a0)) in Hp0.
  destruct (overall_shape gain s) as (Hshape & Hrank).
  pose proof (maxima_shape gain s) as Hm.
  set (d := dev (snd (calibrate_gain gain s))) in *.
  assert (Hle : forall a b, Fp.fgt (max_of b d) (max_of a d) = false <->
                            rank (max_of b d) <= rank (max_of a d)).
  { intros a b. unfold Fp.fgt. rewrite (FpMore.ltb_rank _ _ (Hm a) (Hm b)).
    rewrite Z.ltb_ge. reflexivity. }
  split.
  - intros a Ha.
    assert (Hx := proj1 (Hle a AxisX) (Ha AxisX)).
    assert (Hy := proj1 (Hle a AxisY) (Ha AxisY)).
    assert (Hz := proj1 (Hle a AxisZ) (Ha AxisZ)).
    assert (Ha0 := proj1 (Hle a a0) (Ha a0)).
    pose proof (calibrate_gain_scale gain s a) as Hsc. cbv zeta in Hsc.
    fold d in Hsc. rewrite Hsc.
    set (overall := fmax_step (max_of AxisZ d)
                      (fmax_step (max_of AxisY d)
                         (fmax_step (max_of AxisX d) (Fp.float_of_Z 0)))) in *.
    assert (Heq : overall = max_of a d).
    { apply (FpMore.rank_inj _ _ Hshape (Hm a)). rewrite Hrank.
      destruct a; lia. }
    rewrite <- Heq. apply FpMore.fdiv_self.
    apply (FpMore.rank_zero_posfin _ Hshape). rewrite Heq. lia.
  - destruct (Z.le_gt_cases (rank (max_of AxisY d)) (rank (max_of AxisX d)));
      destruct (Z.le_gt_cases (rank (max_of AxisZ d)) (rank (max_of AxisX d)));
      destruct (Z.le_gt_cases (rank (max_of AxisZ d)) (rank (max_of AxisY d)));
      try (exists AxisX; intros b; apply Hle; destruct b; lia);
      try (exists AxisY; intros b; apply Hle; destruct b; lia);
      try (exists AxisZ; intros b; apply Hle; destruct b; lia).
Qed.

End SimpleMore.

(** ** The further theorems at work on the example sessions *)

Section MoreExamples.

#[local] Existing Instance hmc5883l_h.
#[local] Existing Instance indefinite_target.

Lemma setGain_encoding_witness :
  exists v,
    setGain 5 in_tolerance_session
      = (tt, advance in_tolerance_session 0 [BusWrite 30 1 v]) /\
    0 <= v < 256 /\ Z.shiftr v 5 = 5 /\ Z.land v 31 = 0.
Proof.
  assert (H : 0 <= 5 <= 7) by lia.
  exact (setGain_encoding 5 in_tolerance_session H).
Defined.

Lemma setDOR_encoding_witness :
  exists v,
    setDOR 4 in_tolerance_session
      = (tt, advance in_tolerance_session 0 [BusWrite 30 0 v]) /\
    0 <= v < 32 /\ Z.shiftr v 2 = 4 /\ Z.land v 3 = 0.
Proof.
  assert (H : 0 <= 4 <= 6) by lia.
  exact (setDOR_encoding 4 in_tolerance_session H).
Defined.

Lemma calibrate_failed_identity_read_witness :
  ok (failed_read_script 0) = false /\
  fst (getID failed_read_session) = (x00, x00, x00) /\
  fst (calibrate 1 5 failed_read_session) = false /\
  served (i2c_client (snd (calibrate 1 5 failed_read_session))) = 1%nat /\
  filter is_write (journal (i2c_client (snd (calibrate 1 5 failed_read_session))))
    = [] /\
  dev (snd (calibrate 1 5 failed_read_session)) = dev failed_read_session.
Proof.
  split; [reflexivity|].
  apply (calibrate_failed_identity_read 1 5 failed_read_session);
    [lia | lia | reflexivity].
Defined.

Lemma calibrate_ends_restored_witness :
  exists added,
    journal (i2c_client (snd (calibrate 1 5 in_tolerance_session)))
      = journal (i2c_client in_tolerance_session) ++ added /\
    last added (Sleep 0) = BusWrite 30 0 16 /\
    count is_restore added = 1%nat.
Proof.
  assert (Hg : 0 <= 1 <= 7) by lia.
  assert (Hn : 0 < 5) by lia.
  assert (Hbias : bias_patterns_set) by (split; vm_compute; discriminate).
  exact (calibrate_ends_restored 1 5 in_tolerance_session Hg Hn eq_refl Hbias).
Defined.

Lemma calibrate_ignores_first_reading_witness :
  saturated (raw_of (i2c_client discarded_saturated_session) 1) = true /\
  fst (calibrate 1 5 in_tolerance_session)
    = fst (calibrate 1 5 discarded_saturated_session) /\
  dev (snd (calibrate 1 5 in_tolerance_session))
    = dev (snd (calibrate 1 5 discarded_saturated_session)).
Proof.
  split; [reflexivity|].
  apply (calibrate_ignores_first_reading 1 5 in_tolerance_session
           discarded_saturated_session); [reflexivity | reflexivity |].
  intros i Hi. destruct i as [|[|i]]; [reflexivity | | reflexivity].
  exfalso. apply Hi. reflexivity.
Defined.

Lemma calibrate_reads_and_sleeps_witness :
  exists c,
    served (i2c_client (snd (calibrate 1 5 saturating_session)))
      = (c + served (i2c_client saturating_session))%nat /\
    4 <= Z.of_nat c <= 2 * 5 + 2 /\
    exists added,
      journal (i2c_client (snd (calibrate 1 5 saturating_session)))
        = journal (i2c_client saturating_session) ++ added /\
      slept added = 100 * (Z.of_nat c - 1).
Proof.
  assert (Hg : 0 <= 1 <= 7) by lia.
  assert (Hn : 0 < 5) by lia.
  exact (calibrate_reads_and_sleeps 1 5 saturating_session Hg Hn eq_refl).
Defined.

Lemma calibrate_success_is_silent_witness :
  fst (calibrate 1 5 in_tolerance_session) = true /\
  Z.of_nat (served (i2c_client (snd (calibrate 1 5 in_tolerance_session))))
    = 2 * 5 + 2 + Z.of_nat (served (i2c_client in_tolerance_session)) /\
  filter is_diag (journal (i2c_client (snd (calibrate 1 5 in_tolerance_session))))
    = filter is_diag (journal (i2c_client in_tolerance_session)).
Proof.
  split; [reflexivity|].
  exact (calibrate_success_is_silent 1 5 in_tolerance_session eq_refl).
Defined.

Lemma calibrate_totals_exact_witness :
  x_scale (dev (snd (calibrate 1 5 in_tolerance_session)))
    = self_test_scale HMC58X3_X_SELF_TEST_GAUSS 1 7000 5 /\
  y_scale (dev (snd (calibrate 1 5 in_tolerance_session)))
    = self_test_scale HMC58X3_Y_SELF_TEST_GAUSS 1 7000 5 /\
  z_scale (dev (snd (calibrate 1 5 in_tolerance_session)))
    = self_test_scale HMC58X3_Z_SELF_TEST_GAUSS 1 7000 5.
Proof.
  assert (Hn : 5 < 32768) by lia.
  exact (calibrate_totals_exact 1 5 in_tolerance_session eq_refl Hn).
Defined.

Lemma getValues_unit_scale_exact_witness :
  fst (getValues axes_session)
    = (Fp.float_of_Z 1, Fp.float_of_Z (-3), Fp.float_of_Z 2) /\
  Fp.truncate (Fp.float_of_Z 1) = Some 1 /\
  Fp.truncate (Fp.float_of_Z (-3)) = Some (-3) /\
  Fp.truncate (Fp.float_of_Z 2) = Some 2.
Proof.
  exact (getValues_unit_scale_exact axes_session eq_refl).
Defined.

Lemma getValues_int16_unit_scale_witness :
  fst (getValues_int16 axes_session) = (1, -2, 2).
Proof.
  exact (getValues_int16_unit_scale axes_session eq_refl).
Defined.

Lemma calibrate_gain_dead_axis_witness :
  (max_of AxisX (dev (snd (calibrate_gain 1 minus_three_session)))
     = Fp.float_of_Z 0 /\
   scale_of AxisX (dev (snd (calibrate_gain 1 minus_three_session)))
     = S754_nan) /\
  (max_of AxisY (dev (snd (calibrate_gain 1 axes_session))) = Fp.float_of_Z 0 /\
   scale_of AxisY (dev (snd (calibrate_gain 1 axes_session)))
     = S754_infinity false).
Proof.
  split.
  - assert (Hdead : forall b j, (j < 10)%nat ->
              component b
                (raw_of (i2c_client minus_three_session)
                   (j + served (i2c_client minus_three_session))) <= 0).
    { intros b j _. destruct b; vm_compute; discriminate. }
    pose proof (calibrate_gain_dead_axis AxisX 1 minus_three_session
                  (Hdead AxisX)) as (Hmax & Hnan & _).
    split; [exact Hmax | exact (Hnan Hdead)].
  - assert (Hdead : forall j, (j < 10)%nat ->
              component AxisY
                (raw_of (i2c_client axes_session)
                   (j + served (i2c_client axes_session))) <= 0).
    { intros j _. vm_compute. discriminate. }
    assert (Hlive : exists b j, (j < 10)%nat /\
              0 < component b
                    (raw_of (i2c_client axes_session)
                       (j + served (i2c_client axes_session)))).
    { exists AxisX, 0%nat. split; [lia | reflexivity]. }
    pose proof (calibrate_gain_dead_axis AxisY 1 axes_session Hdead)
      as (Hmax & _ & Hinf & _).
    split; [exact Hmax | exact (Hinf Hlive)].
Defined.

Lemma calibrate_gain_normalises_witness :
  scale_of AxisZ (dev (snd (calibrate_gain 1 axes_session))) = Fp.float_of_Z 1 /\
  exists a, forall b,
    Fp.fgt (max_of b (dev (snd (calibrate_gain 1 axes_session))))
           (max_of a (dev (snd (calibrate_gain 1 axes_session)))) = false.
Proof.
  assert (Hlive : exists a j, (j < 10)%nat /\
            0 < component a
                  (raw_of (i2c_client axes_session)
                     (j + served (i2c_client axes_session)))).
  { exists AxisX, 0%nat. split; [lia | reflexivity]. }
  pose proof (calibrate_gain_normalises 1 axes_session Hlive) as (Hone & Hex).
  split; [|exact Hex].
  apply Hone. intros b. destruct b; reflexivity.
Defined.

End MoreExamples.
